(** * docs-rs-mcp: resolution and extraction engine of [src/index.ts]

    A shallow embedding of the operations of [DocsRsMcpServer]
    ([searchCrates], [getReadMe], [getItem], [searchInCrate]) and of the
    handler that dispatches to them, together with the JavaScript string
    primitives they call, followed by the properties of the URL scheme, of
    the selector fallback chain, of the item-index listing and of the
    error wrapping.

    Strings are sequences of code units; the development works with code
    units below 256, which is what [Stdlib.Strings.String] offers.  The
    collaborators that are not part of the repository (axios, cheerio and
    turndown) are taken as an environment of functions. *)

From Stdlib Require Import String Ascii List Bool Arith ZArith Lia DecimalString.
Import ListNotations.

Local Open Scope list_scope.
Local Open Scope string_scope.

(** ** JavaScript string and array primitives used by the source *)

Module JS.

(** [s.startsWith(t)] *)
Definition startsWith (s t : string) : bool := String.prefix t s.

(** [s.includes(t)]: [t] occurs in [s] at some offset. *)
Fixpoint includes (s t : string) : bool :=
  if String.prefix t s then true
  else match s with
       | EmptyString => false
       | String _ s' => includes s' t
       end.

(** The pieces of [s] from the current offset on: the piece under
    construction and the pieces after it.  [skip] counts the code units of
    a separator that has been recognised and is still to be passed over. *)
Fixpoint split_from (sep : string) (skip : nat) (s : string) : string * list string :=
  match s with
  | EmptyString => (EmptyString, [])
  | String c s' =>
      match skip with
      | S k => split_from sep k s'
      | O =>
          if String.prefix sep s
          then (EmptyString,
                let (h, t) := split_from sep (String.length sep - 1) s' in h :: t)
          else let (h, t) := split_from sep 0 s' in (String c h, t)
      end
  end.

(** [s.split(sep)]; with an empty separator the result is the list of the
    code units of [s]. *)
Definition split (s sep : string) : list string :=
  if (sep =? "")%string
  then map (fun c => String c EmptyString) (list_ascii_of_string s)
  else let (h, t) := split_from sep 0 s in h :: t.

(** [l.join(sep)] *)
Fixpoint join (l : list string) (sep : string) : string :=
  match l with
  | [] => EmptyString
  | x :: l' =>
      match l' with
      | [] => x
      | _ :: _ => x ++ sep ++ join l' sep
      end
  end.

(** [l.pop()]: the last element, [undefined] on an empty array. *)
Fixpoint pop (l : list string) : option string :=
  match l with
  | [] => None
  | x :: l' => match l' with [] => Some x | _ :: _ => pop l' end
  end.

(** [l.slice(0, -1)]: everything but the last element. *)
Definition slice_0_m1 (l : list string) : list string := removelast l.

Fixpoint replaceAll_from (pat rep : string) (skip : nat) (s : string) : string :=
  match s with
  | EmptyString => EmptyString
  | String c s' =>
      match skip with
      | S k => replaceAll_from pat rep k s'
      | O =>
          if String.prefix pat s
          then rep ++ replaceAll_from pat rep (String.length pat - 1) s'
          else String c (replaceAll_from pat rep 0 s')
      end
  end.

Fixpoint intersperse (rep s : string) : string :=
  match s with
  | EmptyString => rep
  | String c s' => rep ++ String c (intersperse rep s')
  end.

(** [s.replaceAll(pat, rep)] for string arguments; an empty pattern matches
    between any two code units and at both ends. *)
Definition replaceAll (s pat rep : string) : string :=
  if (pat =? "")%string then intersperse rep s
  else replaceAll_from pat rep 0 s.

(** Lower-casing of one code unit below 256: A-Z and the accented capitals
    of Latin-1 (U+00C0 to U+00DE, the multiplication sign excepted). *)
Definition lower_unit (c : ascii) : ascii :=
  let n := nat_of_ascii c in
  if (((65 <=? n) && (n <=? 90)) || ((192 <=? n) && (n <=? 222) && negb (n =? 215)))%nat
  then ascii_of_nat (n + 32)
  else c.

Fixpoint toLowerCase (s : string) : string :=
  match s with
  | EmptyString => EmptyString
  | String c s' => String (lower_unit c) (toLowerCase s')
  end.

(** White space and line terminators below 256: TAB, LF, VT, FF, CR, SP and
    NBSP. *)
Definition is_space (c : ascii) : bool :=
  let n := nat_of_ascii c in
  (((9 <=? n) && (n <=? 13)) || (n =? 32) || (n =? 160))%nat.

Fixpoint trimStart (s : string) : string :=
  match s with
  | EmptyString => EmptyString
  | String c s' => if is_space c then trimStart s' else s
  end.

Fixpoint trimEnd (s : string) : string :=
  match s with
  | EmptyString => EmptyString
  | String c s' =>
      let r := trimEnd s' in
      if is_space c && (r =? "")%string then EmptyString else String c r
  end.

(** [s.trim()] *)
Definition trim (s : string) : string := trimEnd (trimStart s).

(** A value interpolated in a template literal: [undefined] prints as the
    word. *)
Definition show (o : option string) : string :=
  match o with Some s => s | None => "undefined" end.

(** [o || ""] for a string that may be [null] or [undefined]. *)
Definition or_empty (o : option string) : string :=
  match o with Some s => s | None => EmptyString end.

(** [o || d] for a string that may be [undefined]: [undefined] and the
    empty string give [d]. *)
Definition or_else (o : option string) (d : string) : string :=
  match o with
  | Some s => if (s =? "")%string then d else s
  | None => d
  end.

(** A length interpolated in a template literal. *)
Definition show_nat (n : nat) : string := NilEmpty.string_of_uint (Nat.to_uint n).

(** The line feed written [\n] in the source's templates. *)
Definition nl : string := String (ascii_of_nat 10) EmptyString.

(** The double quote of the source's templates. *)
Definition dq : string := String (ascii_of_nat 34) EmptyString.

(** [arr.findIndex(p)], [-1] when no element satisfies [p]. *)
Fixpoint findIndex_from {A : Type} (p : A -> bool) (i : Z) (l : list A) : Z :=
  match l with
  | [] => (-1)%Z
  | x :: l' => if p x then i else findIndex_from p (i + 1)%Z l'
  end.

Definition findIndex {A : Type} (p : A -> bool) (l : list A) : Z :=
  findIndex_from p 0%Z l.

(** [arr.filter((item, index, self) => ...)]: the callback also receives
    the index of the element and the array being filtered. *)
Fixpoint filter_from {A : Type} (p : A -> Z -> list A -> bool)
  (self : list A) (i : Z) (l : list A) : list A :=
  match l with
  | [] => []
  | x :: l' =>
      if p x i self then x :: filter_from p self (i + 1)%Z l'
      else filter_from p self (i + 1)%Z l'
  end.

Definition filter_indexed {A : Type} (p : A -> Z -> list A -> bool) (l : list A) : list A :=
  filter_from p l 0%Z l.

End JS.

Import JS.

(** ** The collaborators: axios, cheerio and turndown *)

(** What the source reads of an element of a loaded page: its inner markup
    ([.html()]), its text ([.text()]) and its [href] attribute
    ([.attr("href")], [undefined] when the attribute is missing). *)
Record Element : Type := mkElement {
  inner_html : string;
  inner_text : string;
  attr_href : option string
}.

(** A cheerio selection: the matched elements in document order. *)
Definition Cheerio : Type := list Element.

(** [sel.first()] *)
Definition first (sel : Cheerio) : Cheerio := firstn 1 sel.

(** [sel.html()]: the inner markup of the first element of the selection,
    [null] on an empty selection. *)
Definition html (sel : Cheerio) : option string :=
  match sel with
  | [] => None
  | e :: _ => Some (inner_html e)
  end.

(** The loaded page [$]: it answers a selector with a selection. *)
Definition Document : Type := string -> Cheerio.

(** [axios.get(url)] either throws (the printed error is kept) or gives the
    body of the response. *)
Inductive Response : Type :=
| Rejected (error : string)
| Resolved (data : string).

Record Env : Type := mkEnv {
  axios_get : string -> Response;
  cheerio_load : string -> Document;
  turndown : string -> string
}.

(** What an operation does for its caller: it returns the text of its
    single content entry, or throws an [Error] with a message. *)
Inductive Outcome : Type :=
| Returned (text : string)
| Thrown (message : string).

(** ** Selector queries, with the list of the selectors consulted *)

Definition Query (A : Type) : Type := Document -> list string -> A * list string.

Definition ret {A : Type} (a : A) : Query A := fun _ log => (a, log).

Definition bind {A B : Type} (m : Query A) (k : A -> Query B) : Query B :=
  fun doc log => let (a, log') := m doc log in k a doc log'.

(** [$(selector)] *)
Definition select (selector : string) : Query Cheerio :=
  fun doc log => (doc selector, (log ++ [selector])%list).

Definition run {A : Type} (m : Query A) (doc : Document) : A * list string := m doc [].

Notation "x <- m ;; k" := (bind m (fun x => k))
  (at level 61, m at next level, right associativity).

(** ** The operations *)

Definition version_or_latest (version : option string) : string :=
  match version with Some v => v | None => "latest" end.

(** *** [getReadMe] *)

Definition readmeUrl (crate_name : string) (version : option string) : string :=
  "https://docs.rs/" ++ crate_name ++ "/" ++ version_or_latest version ++ "/"
    ++ crate_name ++ "/index.html".

(** The body of [getReadMe] once the page is loaded: [None] stands for the
    early return of the not-found payload, [Some h] for the markup handed to
    turndown. *)
Definition readmeFragment : Query (option string) :=
  mainContent <- (s <- select ".rustdoc .docblock" ;; ret (first s)) ;;
  if (List.length mainContent =? 0)%nat then
    alternativeContent <- (s <- select ".rustdoc-main .item-decl" ;; ret (first s)) ;;
    if (List.length alternativeContent =? 0)%nat then ret None
    else ret (Some (or_empty (html mainContent)))
  else ret (Some (or_empty (html mainContent))).

Definition getReadMe (env : Env) (crate_name : string) (version : option string) : Outcome :=
  let url := readmeUrl crate_name version in
  match axios_get env url with
  | Rejected error =>
      Thrown ("Failed to get README for " ++ crate_name ++ ": " ++ error)
  | Resolved data =>
      match fst (run readmeFragment (cheerio_load env data)) with
      | None =>
          Returned ("# " ++ crate_name ++ " Documentation" ++ nl ++ nl
                      ++ "No documentation content found at " ++ url)
      | Some htmlContent =>
          let markdownContent := turndown env htmlContent in
          Returned ("# " ++ crate_name ++ " Documentation" ++ nl ++ nl ++ markdownContent)
      end
  end.

(** *** [getItem] *)

Definition itemUrl (crate_name : string) (version : option string)
  (item_type item_path : string) : string :=
  let item_name := pop (split item_path "::") in
  if (item_type =? "module")%string then
    "https://docs.rs/" ++ crate_name ++ "/" ++ version_or_latest version ++ "/"
      ++ replaceAll item_path "::" "/" ++ "/index.html"
  else
    let pathParts := split item_path "::" in
    let modulePath := join (slice_0_m1 pathParts) "/" in
    "https://docs.rs/" ++ crate_name ++ "/" ++ version_or_latest version ++ "/"
      ++ modulePath ++ "/" ++ item_type ++ "." ++ show item_name ++ ".html".

(** The value of [contentHtml] after the selector chain. *)
Definition itemFragment : Query string :=
  mainContentSection <- select "#main-content" ;;
  let contentHtml := "" in
  if (0 <? List.length mainContentSection)%nat then
    ret (or_empty (html mainContentSection))
  else
    itemDecl <- (s <- select ".rustdoc .item-decl" ;; ret (first s)) ;;
    mainContent <- (s <- select ".rustdoc .docblock" ;; ret (first s)) ;;
    let contentHtml :=
      if (0 <? List.length itemDecl)%nat
      then contentHtml ++ or_empty (html itemDecl) else contentHtml in
    if (List.length mainContent =? 0)%nat then
      alternativeContent <- (s <- select ".rustdoc-main .item-decl" ;; ret (first s)) ;;
      if (0 <? List.length alternativeContent)%nat
      then ret (contentHtml ++ or_empty (html alternativeContent))
      else ret contentHtml
    else ret (contentHtml ++ or_empty (html mainContent)).

Definition getItem (env : Env) (crate_name item_type item_path : string)
  (version : option string) : Outcome :=
  let url := itemUrl crate_name version item_type item_path in
  match axios_get env url with
  | Rejected error =>
      Thrown ("Failed to get item documentation for " ++ item_path ++ ": " ++ error)
  | Resolved data =>
      let contentHtml := fst (run itemFragment (cheerio_load env data)) in
      if (contentHtml =? "")%string then
        Returned ("# " ++ item_path ++ " (" ++ item_type ++ ")" ++ nl ++ nl
                    ++ "No documentation content found at " ++ url)
      else
        let markdownContent := turndown env contentHtml in
        Returned ("# " ++ item_path ++ " (" ++ item_type ++ ")" ++ nl ++ nl
                    ++ "**Documentation URL:** " ++ url ++ nl ++ nl ++ markdownContent)
  end.

(** *** [searchInCrate] *)

Record Item : Type := mkItem {
  name : string;
  type : string;
  link : string
}.

(** The chain of [includes] tests on the link target. *)
Definition classify (itemLink : string) : string :=
  if includes itemLink "struct." then "struct"
  else if includes itemLink "trait." then "trait"
  else if includes itemLink "fn." then "function"
  else if includes itemLink "enum." then "enum"
  else if includes itemLink "type." then "type"
  else if includes itemLink "const." then "constant"
  else if includes itemLink "static." then "static"
  else if includes itemLink "macro." then "macro"
  else "unknown".

(** [!query || query == "" || itemName.toLowerCase().includes(query.toLowerCase())];
    the first disjunct holds of an absent query, so that the last one is
    evaluated on strings only. *)
Definition matchesQuery (query : option string) (itemName : string) : bool :=
  match query with
  | None => true
  | Some q =>
      (q =? "")%string || (q =? "")%string
      || includes (toLowerCase itemName) (toLowerCase q)
  end.

(** [!item_type || item_type == "" || type === item_type
     || itemName.toLowerCase().includes(item_type.toLowerCase())] *)
Definition matchesType (item_type : option string) (type itemName : string) : bool :=
  match item_type with
  | None => true
  | Some t =>
      (t =? "")%string || (t =? "")%string
      || (type =? t)%string
      || includes (toLowerCase itemName) (toLowerCase t)
  end.

(** One call of the [each] callback: [items] is the array it pushes to. *)
Definition visit (crate_name : string) (version query item_type : option string)
  (items : list Item) (element : Element) : list Item :=
  let itemName := trim (inner_text element) in
  let itemLink := or_empty (attr_href element) in
  if (itemName =? "")%string || (itemLink =? "")%string then items
  else
    let type := classify itemLink in
    if matchesQuery query itemName && matchesType item_type type itemName
       && negb (type =? "unknown")%string
    then (items ++ [ {| name := itemName;
                        type := type;
                        link := if startsWith itemLink "http" then itemLink
                                else "https://docs.rs/" ++ crate_name ++ "/"
                                       ++ version_or_latest version ++ "/"
                                       ++ crate_name ++ "/" ++ itemLink |} ])%list
    else items.

(** The array [items] after the [each] loop over [#main-content a]. *)
Definition collectItems (doc : Document) (crate_name : string)
  (version query item_type : option string) : list Item :=
  fold_left (visit crate_name version query item_type) (doc "#main-content a") [].

Definition sameIdentity (item i : Item) : bool :=
  (name i =? name item)%string && (type i =? type item)%string.

Definition uniqueItems (items : list Item) : list Item :=
  filter_indexed
    (fun item index self => (index =? findIndex (sameIdentity item) self)%Z)
    items.

(** The items the listing is rendered from. *)
Definition searchResults (doc : Document) (crate_name : string)
  (version query item_type : option string) : list Item :=
  uniqueItems (collectItems doc crate_name version query item_type).

Definition renderItem (item : Item) : string :=
  "## " ++ name item ++ " (" ++ type item ++ ")" ++ nl ++ nl
    ++ "**Description:** " ++ type item ++ nl ++ nl
    ++ "**Link:** [View Documentation](" ++ link item ++ ")" ++ nl ++ nl
    ++ "---" ++ nl.

Definition allUrl (crate_name : string) (version : option string) : string :=
  "https://docs.rs/" ++ crate_name ++ "/" ++ version_or_latest version ++ "/"
    ++ crate_name ++ "/all.html".

Definition searchInCrate (env : Env) (crate_name : string)
  (query version item_type : option string) : Outcome :=
  let url := allUrl crate_name version in
  match axios_get env url with
  | Rejected error =>
      Thrown ("Failed to search items in " ++ crate_name ++ ": " ++ error)
  | Resolved data =>
      let uniqueItems :=
        searchResults (cheerio_load env data) crate_name version query item_type in
      let searchTerm := or_else query "all items" in
      Returned ("# Search Results for " ++ dq ++ searchTerm ++ dq ++ " in "
                  ++ crate_name ++ nl ++ nl
                  ++ "Found " ++ show_nat (List.length uniqueItems) ++ " items" ++ nl ++ nl
                  ++ (if (List.length uniqueItems =? 0)%nat
                      then "No matching items found."
                      else join (map renderItem uniqueItems) nl))
  end.

(** ** Vocabulary of the statements *)

(** [t] occurs in [s]. *)
Definition Contains (s t : string) : Prop :=
  exists pre post, s = pre ++ t ++ post.

(** No colon occurs in a path segment. *)
Definition segment (s : string) : bool := negb (includes s ":").

(** The classification as a table of patterns scanned from the top: the
    kind of the first pattern that occurs in the link target. *)
Definition kindTable : list (string * string) :=
  [ ("struct.", "struct"); ("trait.", "trait"); ("fn.", "function");
    ("enum.", "enum"); ("type.", "type"); ("const.", "constant");
    ("static.", "static"); ("macro.", "macro") ].

Fixpoint firstMatch (table : list (string * string)) (target : string) : string :=
  match table with
  | [] => "unknown"
  | (pattern, kind) :: table' =>
      if includes target pattern then kind else firstMatch table' target
  end.

(** The identity key of a listed item. *)
Definition identity (i : Item) : string * string := (name i, type i).

(** [l1] is [l2] with some elements left out, the order kept. *)
Inductive Subsequence {A : Type} : list A -> list A -> Prop :=
| sub_nil : Subsequence [] []
| sub_skip : forall x l1 l2, Subsequence l1 l2 -> Subsequence l1 (x :: l2)
| sub_keep : forall x l1 l2, Subsequence l1 l2 -> Subsequence (x :: l1) (x :: l2).

(** Keeping the first item of each identity: an item is kept when no item
    before it has its identity; [seen] holds the items before it. *)
Fixpoint keepFirst (seen items : list Item) : list Item :=
  match items with
  | [] => []
  | x :: items' =>
      if existsb (sameIdentity x) seen then keepFirst (seen ++ [x])%list items'
      else x :: keepFirst (seen ++ [x])%list items'
  end.

(** ** Pages and environments used as concrete inputs *)

Definition block (markup : string) : Element := mkElement markup EmptyString None.

Definition anchor (text href : string) : Element := mkElement text text (Some href).

(** A page given by the selections of the selectors that match in it. *)
Fixpoint page (matches : list (string * Cheerio)) : Document :=
  fun selector =>
    match matches with
    | [] => []
    | (s, sel) :: matches' =>
        if (s =? selector)%string then sel else page matches' selector
    end.

(** An environment in which every fetch gives the page [doc]; the markup
    of the pages below has no tags, and is its own Markdown. *)
Definition serving (doc : Document) : Env :=
  {| axios_get := fun _ => Resolved "<!DOCTYPE html>";
     cheerio_load := fun _ => doc;
     turndown := fun markup => markup |}.

(** An environment in which every fetch fails. *)
Definition offline : Env :=
  {| axios_get := fun _ => Rejected "Error: getaddrinfo ENOTFOUND docs.rs";
     cheerio_load := fun _ => page [];
     turndown := fun markup => markup |}.

(** An overview page without description block, whose declaration block
    sits in the secondary container. *)
Definition overview_alt_only : Document :=
  page [ (".rustdoc-main .item-decl", [block "pub struct Config"]) ].

(** A page whose primary container is there and holds nothing, next to a
    declaration and a description block. *)
Definition item_empty_main : Document :=
  page [ ("#main-content", [block EmptyString]);
         (".rustdoc .item-decl", [block "pub fn spawn()"]);
         (".rustdoc .docblock", [block "Spawns a task."]) ].

(** A page without primary container and without description block, with
    a declaration block under each of the two container classes. *)
Definition item_decl_and_alt : Document :=
  page [ (".rustdoc .item-decl", [block "pub fn spawn()"]);
         (".rustdoc-main .item-decl", [block "pub fn spawn_local()"]) ].

(** A page with a declaration and a description block only. *)
Definition item_decl_and_doc : Document :=
  page [ (".rustdoc .item-decl", [block "pub fn spawn()"]);
         (".rustdoc .docblock", [block "Spawns a task."]) ].

(** A page on which no selector matches. *)
Definition blank_page : Document := page [].

(** An item index with two links of one name and kind and different
    targets, and a link of no known kind. *)
Definition index_page : Document :=
  page [ ("#main-content a",
          [ anchor "Mutex" "sync/struct.Mutex.html";
            anchor "spawn" "task/fn.spawn.html";
            anchor "Mutex" "lock/struct.Mutex.html";
            anchor "sync" "sync/index.html";
            anchor "construct" "fn.construct.html" ]) ].

(** ** The registry search, [searchCrates] *)

(** An entry of [response.data.crates] as the source reads it; the
    description and the documentation link may be [null]. *)
Module Crate.
Record t : Type := mk {
  name : string;
  description : option string;
  downloads : Z;
  newest_version : string;
  documentation : option string
}.
End Crate.

Module CrateSearchResult.
Record t : Type := mk {
  name : string;
  description : string;
  downloads : Z;
  version : string;
  documentation : option string
}.
End CrateSearchResult.

Inductive CratesResponse : Type :=
| CratesRejected (error : string)
| CratesResolved (crates : list Crate.t).

(** The registry as the source uses it: the search endpoint, called with
    the parameters [q], [per_page] and [sort], and the printing of a
    download count in the locale of the host.  Page sizes are integers. *)
Record Registry : Type := mkRegistry {
  crates_get : option string -> Z -> string -> CratesResponse;
  toLocaleString : Z -> string
}.

Definition toSearchResult (crate : Crate.t) : CrateSearchResult.t :=
  {| CrateSearchResult.name := Crate.name crate;
     CrateSearchResult.description :=
       or_else (Crate.description crate) "No description available";
     CrateSearchResult.downloads := Crate.downloads crate;
     CrateSearchResult.version := Crate.newest_version crate;
     CrateSearchResult.documentation := Crate.documentation crate |}.

Definition renderCrate (reg : Registry) (crate : CrateSearchResult.t) : string :=
  "## " ++ CrateSearchResult.name crate ++ " (" ++ CrateSearchResult.version crate ++ ")"
    ++ nl ++ nl
    ++ "**Description:** " ++ CrateSearchResult.description crate ++ nl ++ nl
    ++ "**Downloads:** " ++ toLocaleString reg (CrateSearchResult.downloads crate)
    ++ nl ++ nl
    ++ "**Documentation:** " ++ or_else (CrateSearchResult.documentation crate) "N/A"
    ++ nl ++ nl ++ "---" ++ nl.

Definition searchCrates (reg : Registry) (query : option string)
  (per_page : option Z) (sort : option string) : Outcome :=
  let per_page := match per_page with Some n => n | None => 10%Z end in
  let sort := match sort with Some s => s | None => "relevance" end in
  match crates_get reg query (Z.min per_page 100) sort with
  | CratesRejected error => Thrown ("Failed to search crates: " ++ error)
  | CratesResolved data =>
      let crates := map toSearchResult data in
      Returned ("# Crate Search Results for " ++ dq ++ show query ++ dq ++ nl ++ nl
                  ++ join (map (renderCrate reg) crates) nl)
  end.

(** ** The tool dispatch, the handler of [CallToolRequestSchema] *)

(** The name of the tool and the fields of [request.params.arguments] the
    operations read; [crate_name] and [item_path] are strings, the other
    fields may be missing. *)
Module Request.
Record t : Type := mk {
  name : string;
  crate_name : string;
  item_path : string;
  item_type : option string;
  version : option string;
  query : option string;
  per_page : option Z;
  sort : option string
}.
End Request.

Inductive ErrorCode : Type := MethodNotFound | InternalError.

(** What is thrown inside the handler: an [Error] of an operation, or an
    [McpError] with the code and the message it was built from. *)
Inductive Exception : Type :=
| JsError (message : string)
| McpError (code : ErrorCode) (message : string).

Inductive ToolOutcome : Type :=
| ToolReturned (text : string)
| ToolThrown (error : Exception).

(** An error interpolated in a template literal: an [Error] prints as its
    name and message; how an [McpError] prints is the SDK's affair. *)
Definition showError (mcp_toString : ErrorCode -> string -> string)
  (error : Exception) : string :=
  match error with
  | JsError message =>
      if (message =? "")%string then "Error" else "Error: " ++ message
  | McpError code message => mcp_toString code message
  end.

(** The body of the [try] block: the [switch] on the tool name. *)
Definition dispatch (env : Env) (reg : Registry) (request : Request.t)
  : Outcome + Exception :=
  let name := Request.name request in
  if (name =? "docs_rs_search_crates")%string then
    inl (searchCrates reg (Request.query request) (Request.per_page request)
           (Request.sort request))
  else if (name =? "docs_rs_readme")%string then
    inl (getReadMe env (Request.crate_name request) (Request.version request))
  else if (name =? "docs_rs_get_item")%string then
    inl (getItem env (Request.crate_name request) (show (Request.item_type request))
           (Request.item_path request) (Request.version request))
  else if (name =? "docs_rs_search_in_crate")%string then
    inl (searchInCrate env (Request.crate_name request) (Request.query request)
           (Request.version request) (Request.item_type request))
  else inr (McpError MethodNotFound ("Unknown tool: " ++ name)).

(** The handler: whatever is thrown in the [try] block is caught and thrown
    again as an internal error. *)
Definition callTool (mcp_toString : ErrorCode -> string -> string)
  (env : Env) (reg : Registry) (request : Request.t) : ToolOutcome :=
  let rethrow error :=
    ToolThrown (McpError InternalError
                  ("Error executing tool " ++ Request.name request ++ ": "
                     ++ showError mcp_toString error)) in
  match dispatch env reg request with
  | inl (Returned text) => ToolReturned text
  | inl (Thrown message) => rethrow (JsError message)
  | inr error => rethrow error
  end.

(** ** More vocabulary and inputs *)

(** An item passes the name and the type filter. *)
Definition passes (query item_type : option string) (item : Item) : bool :=
  matchesQuery query (name item) && matchesType item_type (type item) (name item).

(** The link of a listed item, from the target of its anchor. *)
Definition absoluteLink (crate_name : string) (version : option string)
  (itemLink : string) : string :=
  if startsWith itemLink "http" then itemLink
  else "https://docs.rs/" ++ crate_name ++ "/" ++ version_or_latest version ++ "/"
         ++ crate_name ++ "/" ++ itemLink.

(** The kinds [classify] can answer. *)
Definition classifiedKinds : list string :=
  ["struct"; "trait"; "function"; "enum"; "type"; "constant"; "static"; "macro";
   "unknown"].

(** The printing of an [McpError] by the SDK at hand: its name, then the
    code and the message. *)
Definition sdk_toString (code : ErrorCode) (message : string) : string :=
  "McpError: MCP error "
    ++ match code with MethodNotFound => "-32601" | InternalError => "-32603" end
    ++ ": " ++ message.

(** A registry that answers every search with two crates, one of them
    without description and documentation link. *)
Definition two_crates : Registry :=
  {| crates_get := fun _ _ _ =>
       CratesResolved
         [ Crate.mk "serde" (Some "A serialization framework") 1000%Z "1.0.0"
             (Some "https://docs.rs/serde");
           Crate.mk "anon" None 7%Z "0.1.0" None ];
     toLocaleString := fun n => show_nat (Z.to_nat n) |}.


(** A registry that finds no crate. *)
Definition no_crates : Registry :=
  {| crates_get := fun _ _ _ => CratesResolved [];
     toLocaleString := fun n => show_nat (Z.to_nat n) |}.

(** A registry that cannot be reached. *)
Definition registry_down : Registry :=
  {| crates_get := fun _ _ _ => CratesRejected "Error: connect ECONNREFUSED";
     toLocaleString := fun n => show_nat (Z.to_nat n) |}.

Definition request (name crate_name item_path : string) : Request.t :=
  Request.mk name crate_name item_path None None None None None.

(** An item index with an absolute and a relative target, and a name
    surrounded by white space. *)
Definition mixed_index : Document :=
  page [ ("#main-content a",
          [ anchor "  HashMap  " "https://doc.rust-lang.org/std/collections/struct.HashMap.html";
            anchor "hash" "fn.hash.html";
            anchor "Hasher" "trait.Hasher.html";
            anchor "   " "struct.Blank.html" ]) ].

(** ** Sanity checks of the embedding *)

Example split_path : split "tokio::sync::Mutex" "::" = ["tokio"; "sync"; "Mutex"].
Proof. reflexivity. Qed.

Example split_odd : split "a:::b::" "::" = ["a"; ":b"; ""].
Proof. reflexivity. Qed.

Example split_empty : split "" "::" = [""].
Proof. reflexivity. Qed.

Example replaceAll_path : replaceAll "tokio::sync" "::" "/" = "tokio/sync".
Proof. reflexivity. Qed.

Example trim_spaces : trim "  Mutex   " = "Mutex".
Proof. reflexivity. Qed.

Example lower_mixed : toLowerCase "HashMap" = "hashmap".
Proof. reflexivity. Qed.

Example show_nat_decimal : show_nat 12 = "12" /\ show_nat 0 = "0".
Proof. split; reflexivity. Qed.

Example module_url :
  itemUrl "tokio" None "module" "tokio::sync" = "https://docs.rs/tokio/latest/tokio/sync/index.html".
Proof. reflexivity. Qed.

Example index_results :
  searchResults index_page "tokio" None None None =
  [ mkItem "Mutex" "struct" "https://docs.rs/tokio/latest/tokio/sync/struct.Mutex.html";
    mkItem "spawn" "function" "https://docs.rs/tokio/latest/tokio/task/fn.spawn.html";
    mkItem "construct" "struct" "https://docs.rs/tokio/latest/tokio/fn.construct.html" ].
Proof. reflexivity. Qed.

Example blank_item_page :
  getItem (serving blank_page) "tokio" "struct" "tokio::sync::Mutex" (Some "1.0.0") =
  Returned ("# tokio::sync::Mutex (struct)" ++ nl ++ nl
              ++ "No documentation content found at "
              ++ "https://docs.rs/tokio/1.0.0/tokio/sync/struct.Mutex.html").
Proof. reflexivity. Qed.

Example item_decl_and_doc_fragment :
  run itemFragment item_decl_and_doc =
  ("pub fn spawn()Spawns a task.",
   ["#main-content"; ".rustdoc .item-decl"; ".rustdoc .docblock"]).
Proof. reflexivity. Qed.

(** ** Facts on the string primitives *)



Lemma append_empty_r (s : string) : s ++ "" = s.
Proof. induction s as [|c s IH]; simpl; [reflexivity | now rewrite IH]. Qed.

Lemma prefix_append (t s : string) : String.prefix t (t ++ s) = true.
Proof.
  induction t as [|c t IH]; simpl.
  - now destruct s.
  - destruct (ascii_dec c c) as [_|n]; [exact IH | now elim n].
Qed.

Lemma prefix_inv (t s : string) :
  String.prefix t s = true -> exists post, s = t ++ post.
Proof.
  revert s; induction t as [|c t IH]; intros s H.
  - now exists s.
  - destruct s as [|d s]; simpl in H; [discriminate|].
    destruct (ascii_dec c d) as [->|_]; [|discriminate].
    destruct (IH _ H) as [post ->]. now exists post.
Qed.

Lemma includes_here (s t : string) : String.prefix t s = true -> includes s t = true.
Proof. intros H. destruct s; simpl in *; now rewrite H. Qed.

Lemma includes_later (c : ascii) (s t : string) :
  includes s t = true -> includes (String c s) t = true.
Proof.
  intros H. change (includes (String c s) t)
    with (if String.prefix t (String c s) then true else includes s t).
  now destruct (String.prefix t (String c s)).
Qed.

Lemma includes_append (pre t post : string) : includes (pre ++ t ++ post) t = true.
Proof.
  induction pre as [|c pre IH]; simpl append.
  - apply includes_here, prefix_append.
  - now apply includes_later.
Qed.

Lemma includes_Contains (s t : string) : includes s t = true <-> Contains s t.
Proof.
  split.
  - induction s as [|c s IH]; intros H.
    + assert (E : String.prefix t "" = true).
      { change (includes "" t)
          with (if String.prefix t "" then true else false) in H.
        now destruct (String.prefix t ""). }
      destruct (prefix_inv _ _ E) as [post Hp].
      exists EmptyString, post. exact Hp.
    + destruct (String.prefix t (String c s)) eqn:E.
      * destruct (prefix_inv _ _ E) as [post Hp].
        exists EmptyString, post. exact Hp.
      * assert (H' : includes s t = true).
        { change (includes (String c s) t)
            with (if String.prefix t (String c s) then true else includes s t) in H.
          now rewrite E in H. }
        destruct (IH H') as (pre & post & ->). now exists (String c pre), post.
  - intros (pre & post & ->). apply includes_append.
Qed.

Lemma includes_cons_false (c : ascii) (s t : string) :
  includes (String c s) t = false ->
  String.prefix t (String c s) = false /\ includes s t = false.
Proof.
  change (includes (String c s) t)
    with (if String.prefix t (String c s) then true else includes s t).
  destruct (String.prefix t (String c s)); [discriminate | now split].
Qed.


(** ** Splitting a path at its double colons *)

Lemma segment_cons (c : ascii) (s : string) :
  segment (String c s) = true -> c <> ":"%char /\ segment s = true.
Proof.
  unfold segment. intros H. apply negb_true_iff in H.
  apply includes_cons_false in H as [Hp Hs]. split.
  - intros ->. simpl in Hp. now destruct s.
  - now rewrite Hs.
Qed.

Lemma split_from_segment (seg rest : string) :
  segment seg = true ->
  split_from "::" 0 (seg ++ rest) =
  (seg ++ fst (split_from "::" 0 rest), snd (split_from "::" 0 rest)).
Proof.
  induction seg as [|c seg IH]; intros H.
  - simpl append. now destruct (split_from "::" 0 rest).
  - apply segment_cons in H as [Hc Hs].
    simpl append. cbn [split_from String.prefix].
    destruct (ascii_dec ":" c) as [E|_]; [now elim Hc|].
    now rewrite (IH Hs).
Qed.

Lemma prefix_empty (s : string) : String.prefix "" s = true.
Proof. now destruct s. Qed.

Lemma split_from_separator (s : string) :
  split_from "::" 0 ("::" ++ s) =
  (EmptyString, fst (split_from "::" 0 s) :: snd (split_from "::" 0 s)).
Proof.
  cbn. rewrite prefix_empty. now destruct (split_from "::" 0 s).
Qed.

Lemma split_from_join (x : string) (segs : list string) :
  forallb segment (x :: segs) = true ->
  split_from "::" 0 (join (x :: segs) "::") = (x, segs).
Proof.
  revert x; induction segs as [|y segs IH]; intros x H.
  - cbn [join]. rewrite <- (append_empty_r x) at 1.
    rewrite split_from_segment.
    + cbn. now rewrite append_empty_r.
    + cbn in H. now destruct (segment x).
  - cbn [forallb] in H. apply andb_true_iff in H as [Hx Hy].
    change (join (x :: y :: segs) "::") with (x ++ "::" ++ join (y :: segs) "::").
    rewrite (split_from_segment _ _ Hx), split_from_separator, (IH _ Hy).
    cbn. now rewrite append_empty_r.
Qed.

(** Splitting undoes joining, for segments without colon. *)
Lemma split_join (segs : list string) :
  segs <> [] -> forallb segment segs = true ->
  split (join segs "::") "::" = segs.
Proof.
  destruct segs as [|x segs]; [congruence|]. intros _ H.
  unfold split. change (("::" =? "")%string) with false.
  now rewrite (split_from_join _ _ H).
Qed.

Lemma split_from_whole (s : string) :
  includes s "::" = false -> split_from "::" 0 s = (s, []).
Proof.
  induction s as [|c s IH]; intros H; [reflexivity|].
  apply includes_cons_false in H as [Hp Hs].
  cbn [split_from]. rewrite Hp. now rewrite (IH Hs).
Qed.

(** A path without double colon is its only segment. *)
Lemma split_single (s : string) :
  includes s "::" = false -> split s "::" = [s].
Proof.
  intros H. unfold split. change (("::" =? "")%string) with false.
  now rewrite (split_from_whole _ H).
Qed.

Lemma pop_last (l : list string) : l <> [] -> pop l = Some (last l EmptyString).
Proof.
  induction l as [|x l IH]; [congruence|]. intros _.
  destruct l as [|y l]; [reflexivity|].
  change (pop (x :: y :: l)) with (pop (y :: l)).
  change (last (x :: y :: l) "") with (last (y :: l) "").
  apply IH. discriminate.
Qed.

Lemma module_test (item_type : string) :
  item_type <> "module" -> (item_type =? "module")%string = false.
Proof. intros H. now apply String.eqb_neq. Qed.

Lemma split_nonempty (s : string) : split s "::" <> [].
Proof.
  unfold split. change (("::" =? "")%string) with false.
  now destruct (split_from "::" 0 s).
Qed.

(** The URL of an item that is not a module, in terms of the pieces of
    its path. *)
Lemma itemUrl_non_module (crate_name item_type item_path : string) (version : option string) :
  item_type <> "module" ->
  itemUrl crate_name version item_type item_path =
  "https://docs.rs/" ++ crate_name ++ "/" ++ version_or_latest version ++ "/"
    ++ join (removelast (split item_path "::")) "/" ++ "/"
    ++ item_type ++ "." ++ last (split item_path "::") "" ++ ".html".
Proof.
  intros H. unfold itemUrl, slice_0_m1.
  rewrite (module_test _ H), (pop_last _ (split_nonempty item_path)).
  reflexivity.
Qed.

(** ** The URL resolver *)

(** C4: for an item kind other than module and a path of colon-free
    segments joined by double colons, the documentation URL is
    https://docs.rs/{crate}/{version}/{modulePath}/{kind}.{simpleName}.html,
    where modulePath is all segments but the last joined by slashes and
    simpleName is the last segment; for crate tokio, version 1.0.0, kind
    struct and path tokio::sync::Mutex it is
    https://docs.rs/tokio/1.0.0/tokio/sync/struct.Mutex.html. *)
Theorem itemUrl_leaf_file (crate_name item_type : string) (version : option string)
  (segs : list string) :
  item_type <> "module" ->
  segs <> [] ->
  forallb segment segs = true ->
  itemUrl crate_name version item_type (join segs "::") =
    "https://docs.rs/" ++ crate_name ++ "/" ++ version_or_latest version ++ "/"
      ++ join (removelast segs) "/" ++ "/"
      ++ item_type ++ "." ++ last segs "" ++ ".html"
  /\ itemUrl "tokio" (Some "1.0.0") "struct" "tokio::sync::Mutex" =
       "https://docs.rs/tokio/1.0.0/tokio/sync/struct.Mutex.html".
Proof.
  intros Hkind Hne Hseg. split; [|reflexivity].
  rewrite (itemUrl_non_module _ _ _ _ Hkind), (split_join _ Hne Hseg).
  reflexivity.
Qed.

Lemma itemUrl_leaf_file_tokio :
  itemUrl "tokio" (Some "1.0.0") "struct" (join ["tokio"; "sync"; "Mutex"] "::") =
    "https://docs.rs/" ++ "tokio" ++ "/" ++ version_or_latest (Some "1.0.0") ++ "/"
      ++ join (removelast ["tokio"; "sync"; "Mutex"]) "/" ++ "/"
      ++ "struct" ++ "." ++ last ["tokio"; "sync"; "Mutex"] "" ++ ".html"
  /\ itemUrl "tokio" (Some "1.0.0") "struct" "tokio::sync::Mutex" =
       "https://docs.rs/tokio/1.0.0/tokio/sync/struct.Mutex.html".
Proof.
  apply (itemUrl_leaf_file "tokio" "struct" (Some "1.0.0") ["tokio"; "sync"; "Mutex"]).
  - discriminate.
  - discriminate.
  - reflexivity.
Defined.

(** C5: for an item kind other than module and a path of one segment, the
    module path is empty and the URL the source builds keeps both slashes
    around it: the leaf file comes after a doubled slash, that is after an
    empty path segment, and not directly after the version. *)
Theorem itemUrl_single_segment (crate_name item_type item_path : string)
  (version : option string) :
  item_type <> "module" ->
  includes item_path "::" = false ->
  itemUrl crate_name version item_type item_path =
    "https://docs.rs/" ++ crate_name ++ "/" ++ version_or_latest version
      ++ "//" ++ item_type ++ "." ++ item_path ++ ".html".
Proof.
  intros Hkind Hone.
  rewrite (itemUrl_non_module _ _ _ _ Hkind), (split_single _ Hone).
  reflexivity.
Qed.

Lemma itemUrl_single_segment_mutex :
  itemUrl "tokio" (Some "1.0.0") "struct" "Mutex" =
    "https://docs.rs/tokio/1.0.0//struct.Mutex.html".
Proof.
  apply (itemUrl_single_segment "tokio" "struct" "Mutex" (Some "1.0.0")).
  - discriminate.
  - reflexivity.
Defined.

(** ** The selector chain of [getItem] *)

(** With the primary container on the page, the chain stops at it. *)
Lemma itemFragment_primary (doc : Document) :
  doc "#main-content" <> [] ->
  run itemFragment doc = (or_empty (html (doc "#main-content")), ["#main-content"]).
Proof.
  intros H. unfold run, itemFragment, bind, select, ret.
  destruct (doc "#main-content") as [|e sel]; [congruence | reflexivity].
Qed.

(** Without it, the declaration and the description block are looked up,
    and the alternate declaration block when there is no description
    block. *)
Lemma itemFragment_fallback (doc : Document) :
  doc "#main-content" = [] ->
  run itemFragment doc =
  match doc ".rustdoc .docblock" with
  | [] =>
      (or_empty (html (doc ".rustdoc .item-decl"))
         ++ or_empty (html (doc ".rustdoc-main .item-decl")),
       ["#main-content"; ".rustdoc .item-decl"; ".rustdoc .docblock";
        ".rustdoc-main .item-decl"])
  | _ :: _ =>
      (or_empty (html (doc ".rustdoc .item-decl"))
         ++ or_empty (html (doc ".rustdoc .docblock")),
       ["#main-content"; ".rustdoc .item-decl"; ".rustdoc .docblock"])
  end.
Proof.
  intros H. unfold run, itemFragment, bind, select, ret. rewrite H. cbn.
  destruct (doc ".rustdoc .item-decl") as [|d ds],
           (doc ".rustdoc .docblock") as [|b bs]; cbn;
    try reflexivity;
    destruct (doc ".rustdoc-main .item-decl") as [|a alts]; cbn;
    rewrite ?append_empty_r; reflexivity.
Qed.

(** C2, as the source has it: the primary container (#main-content) stops
    the selector chain exactly when it is present, with or without inner
    markup.  When present, its inner markup (empty if it has none) is the
    whole fragment and no other selector is consulted; when absent, the
    declaration and the description selector are consulted. *)
Theorem primary_container_short_circuit (doc : Document) :
  (doc "#main-content" <> [] ->
     run itemFragment doc = (or_empty (html (doc "#main-content")), ["#main-content"]))
  /\ (doc "#main-content" = [] ->
        In ".rustdoc .item-decl" (snd (run itemFragment doc))
        /\ In ".rustdoc .docblock" (snd (run itemFragment doc))).
Proof.
  split.
  - apply itemFragment_primary.
  - intros H. rewrite (itemFragment_fallback _ H).
    destruct (doc ".rustdoc .docblock"); cbn; intuition.
Qed.

Lemma primary_container_short_circuit_pages :
  run itemFragment item_empty_main = (EmptyString, ["#main-content"])
  /\ In ".rustdoc .item-decl" (snd (run itemFragment item_decl_and_doc))
  /\ In ".rustdoc .docblock" (snd (run itemFragment item_decl_and_doc)).
Proof.
  split.
  - apply (proj1 (primary_container_short_circuit item_empty_main)). discriminate.
  - apply (proj2 (primary_container_short_circuit item_decl_and_doc)). reflexivity.
Defined.

(** Against C2 as stated: on a page whose primary container is present
    with empty inner markup, next to a declaration and a description
    block, the fragment is empty and neither fallback selector is
    consulted. *)
Lemma empty_primary_container_stops_chain :
  html (item_empty_main "#main-content") = Some EmptyString
  /\ html (item_empty_main ".rustdoc .item-decl") = Some "pub fn spawn()"
  /\ html (item_empty_main ".rustdoc .docblock") = Some "Spawns a task."
  /\ run itemFragment item_empty_main = (EmptyString, ["#main-content"]).
Proof. repeat split. Qed.

(** C3, as the source has it: the alternate declaration selector
    (.rustdoc-main .item-decl) is consulted exactly when the primary
    container is absent and the description block (.rustdoc .docblock) was
    not found, whether the declaration block was found or not; when the
    description block is found the alternate selector is not consulted and
    the fragment holds nothing of it. *)
Theorem alternate_selector_use (doc : Document) :
  (In ".rustdoc-main .item-decl" (snd (run itemFragment doc)) <->
     doc "#main-content" = [] /\ doc ".rustdoc .docblock" = [])
  /\ (doc ".rustdoc .docblock" <> [] ->
        fst (run itemFragment doc) =
        match doc "#main-content" with
        | [] => or_empty (html (doc ".rustdoc .item-decl"))
                  ++ or_empty (html (doc ".rustdoc .docblock"))
        | _ :: _ => or_empty (html (doc "#main-content"))
        end).
Proof.
  destruct (doc "#main-content") as [|m ms] eqn:Hmain.
  - rewrite (itemFragment_fallback _ Hmain).
    destruct (doc ".rustdoc .docblock") as [|b bs]; cbn; split.
    + intuition.
    + congruence.
    + split; [|intros [_ H]; discriminate].
      intros [H|[H|[H|[]]]]; discriminate.
    + reflexivity.
  - assert (Hne : doc "#main-content" <> []) by (rewrite Hmain; discriminate).
    rewrite (itemFragment_primary _ Hne), Hmain. cbn. split.
    + split; [intros [H|[]]; discriminate | intros [H _]; discriminate].
    + reflexivity.
Qed.

Lemma alternate_selector_use_pages :
  In ".rustdoc-main .item-decl" (snd (run itemFragment item_decl_and_alt))
  /\ fst (run itemFragment item_decl_and_doc) = "pub fn spawn()Spawns a task.".
Proof.
  split.
  - apply (proj1 (alternate_selector_use item_decl_and_alt)). split; reflexivity.
  - apply (proj2 (alternate_selector_use item_decl_and_doc)). discriminate.
Defined.

(** Against C3 as stated: on a page without primary container and without
    description block, the declaration block is found and the alternate
    selector is consulted all the same, its content following the
    declaration in the fragment. *)
Lemma alternate_consulted_after_declaration :
  html (item_decl_and_alt ".rustdoc .item-decl") = Some "pub fn spawn()"
  /\ html (item_decl_and_alt ".rustdoc-main .item-decl") = Some "pub fn spawn_local()"
  /\ run itemFragment item_decl_and_alt =
       ("pub fn spawn()pub fn spawn_local()",
        ["#main-content"; ".rustdoc .item-decl"; ".rustdoc .docblock";
         ".rustdoc-main .item-decl"]).
Proof. repeat split. Qed.

(** ** The payloads of [getReadMe] and [getItem] *)

Lemma readmeFragment_cases (doc : Document) :
  fst (run readmeFragment doc) =
  match doc ".rustdoc .docblock", doc ".rustdoc-main .item-decl" with
  | [], [] => None
  | [], _ :: _ => Some EmptyString
  | b :: _, _ => Some (inner_html b)
  end.
Proof.
  unfold run, readmeFragment, bind, select, ret.
  destruct (doc ".rustdoc .docblock") as [|b bs]; cbn; [|reflexivity].
  now destruct (doc ".rustdoc-main .item-decl").
Qed.

(** When neither selector of [getReadMe] matches, the payload is the
    not-found notice with the URL. *)
Lemma getReadMe_nothing_found (env : Env) (crate_name data : string)
  (version : option string) :
  axios_get env (readmeUrl crate_name version) = Resolved data ->
  cheerio_load env data ".rustdoc .docblock" = [] ->
  cheerio_load env data ".rustdoc-main .item-decl" = [] ->
  getReadMe env crate_name version =
  Returned ("# " ++ crate_name ++ " Documentation" ++ nl ++ nl
              ++ "No documentation content found at " ++ readmeUrl crate_name version).
Proof.
  intros Hget Hdoc Halt. unfold getReadMe.
  now rewrite Hget, readmeFragment_cases, Hdoc, Halt.
Qed.

(** When the fragment of [getItem] is empty, the payload is the not-found
    notice with the URL, whichever branch of the chain left it empty. *)
Lemma getItem_empty_fragment (env : Env) (crate_name item_type item_path data : string)
  (version : option string) :
  axios_get env (itemUrl crate_name version item_type item_path) = Resolved data ->
  fst (run itemFragment (cheerio_load env data)) = EmptyString ->
  getItem env crate_name item_type item_path version =
  Returned ("# " ++ item_path ++ " (" ++ item_type ++ ")" ++ nl ++ nl
              ++ "No documentation content found at "
              ++ itemUrl crate_name version item_type item_path).
Proof.
  intros Hget Hempty. unfold getItem. now rewrite Hget, Hempty.
Qed.

(** C1, at the branch of [getReadMe] the source gets wrong: when the
    description block is absent and the alternate declaration selector
    matches, the markup handed to turndown is that of the absent
    description block, the empty string, and the payload is the heading
    followed by the rendering of the empty string, without the not-found
    notice. *)
Theorem getReadMe_alternate_only (env : Env) (crate_name data : string)
  (version : option string) :
  axios_get env (readmeUrl crate_name version) = Resolved data ->
  cheerio_load env data ".rustdoc .docblock" = [] ->
  cheerio_load env data ".rustdoc-main .item-decl" <> [] ->
  getReadMe env crate_name version =
  Returned ("# " ++ crate_name ++ " Documentation" ++ nl ++ nl
              ++ turndown env EmptyString).
Proof.
  intros Hget Hdoc Halt. unfold getReadMe.
  rewrite Hget, readmeFragment_cases, Hdoc.
  destruct (cheerio_load env data ".rustdoc-main .item-decl"); [congruence|reflexivity].
Qed.

Lemma getReadMe_alternate_only_serde :
  getReadMe (serving overview_alt_only) "serde" None =
    Returned ("# serde Documentation" ++ nl ++ nl)
  /\ includes ("# serde Documentation" ++ nl ++ nl) "No documentation content found" = false.
Proof.
  split; [|reflexivity].
  apply (getReadMe_alternate_only (serving overview_alt_only) "serde" "<!DOCTYPE html>" None).
  - reflexivity.
  - reflexivity.
  - discriminate.
Defined.

(** C9: when the fetch of [getReadMe] throws, the operation throws an
    error whose message holds the crate name and the word Failed. *)
Theorem getReadMe_fetch_failure (env : Env) (crate_name error : string)
  (version : option string) :
  axios_get env (readmeUrl crate_name version) = Rejected error ->
  exists message,
    getReadMe env crate_name version = Thrown message
    /\ Contains message crate_name
    /\ Contains message "Failed".
Proof.
  intros Hget. unfold getReadMe. rewrite Hget.
  eexists. split; [reflexivity|]. split.
  - exists "Failed to get README for ", (": " ++ error). reflexivity.
  - exists EmptyString, (" to get README for " ++ crate_name ++ ": " ++ error).
    reflexivity.
Qed.

Lemma getReadMe_fetch_failure_offline :
  exists message,
    getReadMe offline "serde" None = Thrown message
    /\ Contains message "serde"
    /\ Contains message "Failed".
Proof.
  apply (getReadMe_fetch_failure offline "serde" "Error: getaddrinfo ENOTFOUND docs.rs" None).
  reflexivity.
Defined.

(** ** The item index: classification and filters *)

Lemma classify_table (itemLink : string) : classify itemLink = firstMatch kindTable itemLink.
Proof. reflexivity. Qed.

Lemma visit_append (crate_name : string) (version query item_type : option string)
  (items : list Item) (element : Element) :
  visit crate_name version query item_type items element =
  (items ++ visit crate_name version query item_type [] element)%list.
Proof.
  unfold visit.
  destruct ((trim (inner_text element) =? "")%string
            || (or_empty (attr_href element) =? "")%string);
    [now rewrite app_nil_r|].
  destruct (matchesQuery query (trim (inner_text element))
            && matchesType item_type (classify (or_empty (attr_href element)))
                 (trim (inner_text element))
            && negb (classify (or_empty (attr_href element)) =? "unknown")%string);
    [reflexivity | now rewrite app_nil_r].
Qed.

Lemma fold_visit (crate_name : string) (version query item_type : option string)
  (elements : list Element) (items : list Item) :
  fold_left (visit crate_name version query item_type) elements items =
  (items ++ flat_map (visit crate_name version query item_type []) elements)%list.
Proof.
  revert items; induction elements as [|e elements IH]; intros items; cbn [fold_left flat_map].
  - now rewrite app_nil_r.
  - rewrite IH, visit_append, app_assoc. reflexivity.
Qed.

(** The collected items, one link at a time. *)
Lemma collectItems_flat_map (doc : Document) (crate_name : string)
  (version query item_type : option string) :
  collectItems doc crate_name version query item_type =
  flat_map (visit crate_name version query item_type []) (doc "#main-content a").
Proof. unfold collectItems. now rewrite fold_visit. Qed.

(** What a pushed item says of the link it comes from. *)
Lemma visit_pushed (crate_name : string) (version query item_type : option string)
  (element : Element) (item : Item) :
  In item (visit crate_name version query item_type [] element) ->
  name item = trim (inner_text element)
  /\ type item = classify (or_empty (attr_href element))
  /\ type item <> "unknown"
  /\ matchesQuery query (name item) = true
  /\ matchesType item_type (type item) (name item) = true.
Proof.
  unfold visit.
  destruct ((trim (inner_text element) =? "")%string
            || (or_empty (attr_href element) =? "")%string); [intros []|].
  destruct (matchesQuery query (trim (inner_text element))) eqn:Hq; [|intros []].
  destruct (matchesType item_type (classify (or_empty (attr_href element)))
              (trim (inner_text element))) eqn:Ht; [|intros []].
  destruct ((classify (or_empty (attr_href element)) =? "unknown")%string) eqn:Hu;
    [intros []|].
  cbn. intros [<-|[]]. cbn. repeat split; try assumption.
  now apply String.eqb_neq.
Qed.

Lemma Subsequence_In {A : Type} (l1 l2 : list A) (x : A) :
  Subsequence l1 l2 -> In x l1 -> In x l2.
Proof.
  induction 1 as [|y l1 l2 _ IH|y l1 l2 _ IH]; cbn; intuition.
Qed.

Lemma filter_from_Subsequence {A : Type} (p : A -> Z -> list A -> bool)
  (self : list A) (i : Z) (l : list A) :
  Subsequence (filter_from p self i l) l.
Proof.
  revert i; induction l as [|x l IH]; intros i; cbn.
  - constructor.
  - destruct (p x i self); constructor; apply IH.
Qed.

Lemma uniqueItems_Subsequence (items : list Item) : Subsequence (uniqueItems items) items.
Proof. apply filter_from_Subsequence. Qed.

(** C6: the type of a link is the kind of the first pattern of the table
    struct, trait, fn, enum, type, const, static, macro that occurs in its
    target, and unknown when none occurs; every returned item comes from a
    link of the page, carries the classification of the target of that
    link, and is never of type unknown, whatever the name and type
    filters. *)
Theorem results_classified_and_known (doc : Document) (crate_name : string)
  (version query item_type : option string) :
  (forall itemLink, classify itemLink = firstMatch kindTable itemLink)
  /\ Forall (fun item =>
               (exists element,
                   In element (doc "#main-content a")
                   /\ name item = trim (inner_text element)
                   /\ type item = firstMatch kindTable (or_empty (attr_href element)))
               /\ type item <> "unknown")
       (searchResults doc crate_name version query item_type).
Proof.
  split; [exact classify_table|].
  apply Forall_forall. intros item Hin.
  apply (Subsequence_In _ _ _ (uniqueItems_Subsequence _)) in Hin.
  rewrite collectItems_flat_map in Hin.
  apply in_flat_map in Hin as (element & Helem & Hpush).
  apply visit_pushed in Hpush as (Hname & Htype & Hknown & _).
  split; [|exact Hknown].
  exists element. rewrite <- classify_table. auto.
Qed.

(** C10: the patterns are not anchored.  A target in which struct. occurs
    anywhere is classified struct; so is the target fn.construct.html, in
    which fn. occurs as well, because struct. is tested first. *)
Theorem classify_struct_unanchored (pre post : string) :
  classify (pre ++ "struct." ++ post) = "struct"
  /\ includes "fn.construct.html" "fn." = true
  /\ classify "fn.construct.html" = "struct".
Proof.
  split; [|split; reflexivity].
  unfold classify. now rewrite includes_append.
Qed.

(** C8: for a type query that is not empty, an item passes the type filter
    exactly when its classified type is the query, compared as it is
    written, or the query occurs in its name once both are lower-cased; an
    empty or absent query lets every item pass. *)
Theorem matchesType_spec (typeQuery type itemName : string) :
  typeQuery <> "" ->
  (matchesType (Some typeQuery) type itemName = true <->
     type = typeQuery \/ Contains (toLowerCase itemName) (toLowerCase typeQuery))
  /\ matchesType None type itemName = true
  /\ matchesType (Some "") type itemName = true.
Proof.
  intros Hne. split; [|split; reflexivity].
  unfold matchesType.
  apply String.eqb_neq in Hne. rewrite Hne. cbn [orb].
  rewrite orb_true_iff, String.eqb_eq, includes_Contains. reflexivity.
Qed.

Lemma matchesType_spec_struct :
  (matchesType (Some "struct") "struct" "Mutex" = true <->
     "struct" = "struct" \/ Contains (toLowerCase "Mutex") (toLowerCase "struct"))
  /\ matchesType None "struct" "Mutex" = true
  /\ matchesType (Some "") "struct" "Mutex" = true.
Proof.
  apply (matchesType_spec "struct" "struct" "Mutex"). discriminate.
Defined.

(** ** The item index: duplicates *)

Lemma sameIdentity_iff (x y : Item) : sameIdentity x y = true <-> identity y = identity x.
Proof.
  unfold sameIdentity, identity.
  rewrite andb_true_iff, !String.eqb_eq. split.
  - intros [-> ->]. reflexivity.
  - intros H. inversion H. auto.
Qed.

Lemma sameIdentity_refl (x : Item) : sameIdentity x x = true.
Proof. now apply sameIdentity_iff. Qed.

Lemma sameIdentity_subst (x y z : Item) :
  sameIdentity x y = true -> sameIdentity y z = sameIdentity x z.
Proof.
  intros H. apply sameIdentity_iff in H. unfold sameIdentity, identity in *.
  inversion H as [[Hn Ht]]. now rewrite Hn, Ht.
Qed.

Lemma existsb_sameIdentity_subst (x y : Item) (seen : list Item) :
  sameIdentity x y = true ->
  existsb (sameIdentity y) seen = existsb (sameIdentity x) seen.
Proof.
  intros H. induction seen as [|z seen IH]; cbn; [reflexivity|].
  now rewrite IH, (sameIdentity_subst _ _ z H).
Qed.

(** [findIndex] passes over a prefix without match. *)
Lemma findIndex_from_skip {A : Type} (p : A -> bool) (i : Z) (pre rest : list A) :
  existsb p pre = false ->
  findIndex_from p i (pre ++ rest) = findIndex_from p (i + Z.of_nat (List.length pre)) rest.
Proof.
  revert i; induction pre as [|x pre IH]; intros i H.
  - cbn. now rewrite Z.add_0_r.
  - cbn [existsb] in H. apply orb_false_iff in H as [Hx Hpre].
    cbn [app findIndex_from List.length]. rewrite Hx, (IH _ Hpre).
    f_equal. lia.
Qed.

(** [findIndex] stops inside a prefix with a match. *)
Lemma findIndex_from_stop {A : Type} (p : A -> bool) (i : Z) (pre rest : list A) :
  existsb p pre = true ->
  (i <= findIndex_from p i (pre ++ rest) < i + Z.of_nat (List.length pre))%Z.
Proof.
  revert i; induction pre as [|x pre IH]; intros i H; [discriminate|].
  cbn [existsb] in H. cbn [app findIndex_from List.length].
  destruct (p x); [lia|].
  cbn [orb] in H. specialize (IH (i + 1)%Z H). lia.
Qed.

(** The index test of [uniqueItems] on the item at position [length seen]:
    it holds exactly when no earlier item has the identity of the item. *)
Lemma first_index_test (seen rest : list Item) (x : Item) :
  (Z.of_nat (List.length seen) =? findIndex (sameIdentity x) (seen ++ x :: rest))%Z =
  negb (existsb (sameIdentity x) seen).
Proof.
  unfold findIndex. destruct (existsb (sameIdentity x) seen) eqn:E.
  - pose proof (findIndex_from_stop (sameIdentity x) 0 seen (x :: rest) E).
    cbn [negb]. apply Z.eqb_neq. lia.
  - rewrite (findIndex_from_skip _ _ _ _ E). cbn [findIndex_from].
    rewrite sameIdentity_refl. cbn [negb]. apply Z.eqb_eq. lia.
Qed.

Lemma filter_from_keepFirst (seen items : list Item) :
  filter_from
    (fun item index self => (index =? findIndex (sameIdentity item) self)%Z)
    (seen ++ items) (Z.of_nat (List.length seen)) items =
  keepFirst seen items.
Proof.
  revert seen; induction items as [|x items IH]; intros seen; [reflexivity|].
  cbn [filter_from keepFirst]. rewrite first_index_test.
  assert (Hself : (seen ++ x :: items = (seen ++ [x]) ++ items)%list)
    by now rewrite <- app_assoc.
  assert (Hidx : (Z.of_nat (List.length seen) + 1 =
                  Z.of_nat (List.length (seen ++ [x])%list))%Z)
    by (rewrite length_app; cbn; lia).
  rewrite Hself, Hidx, IH.
  now destruct (existsb (sameIdentity x) seen).
Qed.

(** The filter of the source keeps the first item of each identity. *)
Lemma uniqueItems_keepFirst (items : list Item) : uniqueItems items = keepFirst [] items.
Proof. exact (filter_from_keepFirst [] items). Qed.

Lemma keepFirst_unseen (seen items : list Item) (y : Item) :
  In y (keepFirst seen items) -> existsb (sameIdentity y) seen = false.
Proof.
  revert seen; induction items as [|x items IH]; intros seen; cbn [keepFirst]; [intros []|].
  assert (Hrest : In y (keepFirst (seen ++ [x])%list items) ->
                  existsb (sameIdentity y) seen = false).
  { intros H. apply IH in H. rewrite existsb_app in H.
    now apply orb_false_iff in H. }
  destruct (existsb (sameIdentity x) seen) eqn:E; [exact Hrest|].
  intros [<-|H]; [exact E | now apply Hrest].
Qed.

Lemma keepFirst_NoDup (seen items : list Item) :
  NoDup (map identity (keepFirst seen items)).
Proof.
  revert seen; induction items as [|x items IH]; intros seen; cbn [keepFirst].
  - constructor.
  - destruct (existsb (sameIdentity x) seen); [apply IH|].
    cbn [map]. constructor; [|apply IH].
    intros Hin. apply in_map_iff in Hin as (y & Hid & Hy).
    apply keepFirst_unseen in Hy. rewrite existsb_app in Hy.
    apply orb_false_iff in Hy as [_ Hy]. cbn [existsb] in Hy.
    symmetry in Hid. apply sameIdentity_iff in Hid.
    rewrite Hid in Hy. discriminate.
Qed.

Lemma keepFirst_first (seen items : list Item) (x : Item) :
  In x items -> existsb (sameIdentity x) seen = false ->
  exists y, find (sameIdentity x) items = Some y /\ In y (keepFirst seen items).
Proof.
  revert seen; induction items as [|a items IH]; intros seen Hin Hseen; [destruct Hin|].
  cbn [find keepFirst]. destruct (sameIdentity x a) eqn:Ea.
  - exists a. split; [reflexivity|].
    rewrite (existsb_sameIdentity_subst _ _ seen Ea), Hseen. now left.
  - destruct Hin as [->|Hin]; [now rewrite sameIdentity_refl in Ea|].
    destruct (IH (seen ++ [a])%list Hin) as (y & Hfind & Hy).
    { rewrite existsb_app, Hseen. cbn [existsb orb]. now rewrite Ea. }
    exists y. split; [exact Hfind|].
    destruct (existsb (sameIdentity a) seen); [exact Hy | now right].
Qed.

(** C7: the returned items are the surviving items with, for each pair of
    name and classified type, the first surviving item only.  They are a
    subsequence of the surviving items, so the order of encounter is kept;
    no two of them share name and type; and for every surviving item, the
    first surviving item of its name and type is among them, whatever the
    link targets. *)
Theorem results_deduplicated (doc : Document) (crate_name : string)
  (version query item_type : option string) :
  let items := collectItems doc crate_name version query item_type in
  let results := searchResults doc crate_name version query item_type in
  results = keepFirst [] items
  /\ Subsequence results items
  /\ NoDup (map identity results)
  /\ (forall x, In x items ->
        exists y, find (sameIdentity x) items = Some y
                  /\ identity y = identity x
                  /\ In y results).
Proof.
  intros items results. subst results. unfold searchResults. fold items.
  split; [apply uniqueItems_keepFirst|].
  split; [apply uniqueItems_Subsequence|].
  rewrite uniqueItems_keepFirst.
  split; [apply keepFirst_NoDup|].
  intros x Hin.
  destruct (keepFirst_first [] items x Hin eq_refl) as (y & Hfind & Hy).
  exists y. repeat split; try assumption.
  apply find_some in Hfind as [_ Hsame]. now apply sameIdentity_iff.
Qed.

Lemma results_deduplicated_index :
  exists y,
    find (sameIdentity (mkItem "Mutex" "struct"
                          "https://docs.rs/tokio/latest/tokio/lock/struct.Mutex.html"))
      (collectItems index_page "tokio" None None None) = Some y
    /\ identity y = ("Mutex", "struct")
    /\ In y (searchResults index_page "tokio" None None None).
Proof.
  apply (proj2 (proj2 (proj2
    (results_deduplicated index_page "tokio" None None None)))).
  cbn. right. right. left. reflexivity.
Defined.

(** ** The URL of a module *)

Lemma join_cons_unit (c : ascii) (h : string) (t : list string) (sep : string) :
  join (String c h :: t) sep = String c (join (h :: t) sep).
Proof. now destruct t. Qed.

Lemma replaceAll_from_step (c : ascii) (s : string) :
  replaceAll_from "::" "/" 0 (String c s) =
  if String.prefix "::" (String c s)
  then "/" ++ replaceAll_from "::" "/" 1 s
  else String c (replaceAll_from "::" "/" 0 s).
Proof. reflexivity. Qed.

Lemma split_from_step (c : ascii) (s : string) :
  split_from "::" 0 (String c s) =
  if String.prefix "::" (String c s)
  then (EmptyString, fst (split_from "::" 1 s) :: snd (split_from "::" 1 s))
  else (String c (fst (split_from "::" 0 s)), snd (split_from "::" 0 s)).
Proof.
  cbn [split_from String.length Nat.sub].
  destruct (String.prefix "::" (String c s)).
  - now destruct (split_from "::" 1 s).
  - now destruct (split_from "::" 0 s).
Qed.

(** Replacing the double colons by slashes is joining the pieces of the
    path by slashes. *)
Lemma replaceAll_from_split (s : string) :
  (replaceAll_from "::" "/" 0 s =
   join (fst (split_from "::" 0 s) :: snd (split_from "::" 0 s)) "/")
  /\ (forall c,
        replaceAll_from "::" "/" 0 (String c s) =
        join (fst (split_from "::" 0 (String c s))
                :: snd (split_from "::" 0 (String c s))) "/").
Proof.
  induction s as [|d s [IHs IHc]].
  - split; [reflexivity|]. intros c.
    assert (E : String.prefix "::" (String c "") = false)
      by (cbn [String.prefix]; destruct (ascii_dec ":" c); reflexivity).
    rewrite replaceAll_from_step, split_from_step, E. reflexivity.
  - split; [apply IHc|]. intros c.
    rewrite (replaceAll_from_step c), (split_from_step c).
    destruct (String.prefix "::" (String c (String d s))).
    + change (replaceAll_from "::" "/" 1 (String d s))
        with (replaceAll_from "::" "/" 0 s).
      change (split_from "::" 1 (String d s)) with (split_from "::" 0 s).
      rewrite IHs. reflexivity.
    + rewrite (IHc d). cbn [fst snd]. now rewrite join_cons_unit.
Qed.

Lemma replaceAll_split (s : string) :
  replaceAll s "::" "/" = join (split s "::") "/".
Proof.
  unfold replaceAll, split. change (("::" =? "")%string) with false. cbv iota.
  rewrite (proj1 (replaceAll_from_split s)).
  now destruct (split_from "::" 0 s).
Qed.

(** For the kind module, the URL is
    https://docs.rs/{crate}/{version}/{path}/index.html where {path} is the
    pieces of the item path between its double colons, joined by slashes:
    the whole path is a directory, no [module.name.html] leaf is built, and
    the two branches of [getItem] read the segments of a path alike. *)
Theorem itemUrl_module (crate_name item_path : string) (version : option string) :
  itemUrl crate_name version "module" item_path =
  "https://docs.rs/" ++ crate_name ++ "/" ++ version_or_latest version ++ "/"
    ++ join (split item_path "::") "/" ++ "/index.html".
Proof.
  unfold itemUrl. change (("module" =? "module")%string) with true. cbv iota.
  now rewrite replaceAll_split.
Qed.

(** The module page of the crate root is the overview page: for a crate
    name without double colon, [getItem] with the kind module and the crate
    name as path fetches the URL [getReadMe] fetches. *)
Theorem itemUrl_crate_root (crate_name : string) (version : option string) :
  includes crate_name "::" = false ->
  itemUrl crate_name version "module" crate_name = readmeUrl crate_name version.
Proof.
  intros H. unfold itemUrl, readmeUrl.
  change (("module" =? "module")%string) with true. cbv iota.
  now rewrite replaceAll_split, (split_single _ H).
Qed.

Lemma itemUrl_crate_root_tokio :
  itemUrl "tokio" None "module" "tokio" = readmeUrl "tokio" None.
Proof. apply (itemUrl_crate_root "tokio" None). reflexivity. Defined.

(** ** The listed items: names and links *)

Lemma trimEnd_keep (c : ascii) (s : string) :
  is_space c = false -> trimEnd (String c s) = String c (trimEnd s).
Proof. intros H. cbn [trimEnd]. now rewrite H. Qed.

Lemma trimEnd_idempotent (s : string) : trimEnd (trimEnd s) = trimEnd s.
Proof.
  induction s as [|c s IH]; [reflexivity|].
  cbn [trimEnd]. destruct (is_space c && (trimEnd s =? "")%string) eqn:E;
    [reflexivity|].
  cbn [trimEnd]. now rewrite IH, E.
Qed.

Lemma trimStart_head (s : string) :
  trimStart s = EmptyString
  \/ exists c r, trimStart s = String c r /\ is_space c = false.
Proof.
  induction s as [|c s IH]; [now left|].
  cbn [trimStart]. destruct (is_space c) eqn:E; [exact IH|].
  right. now exists c, s.
Qed.

(** Trimming a trimmed string changes nothing. *)
Lemma trim_idempotent (s : string) : trim (trim s) = trim s.
Proof.
  unfold trim. destruct (trimStart_head s) as [->|(c & r & -> & Hc)]; [reflexivity|].
  rewrite (trimEnd_keep _ _ Hc). cbn [trimStart]. rewrite Hc.
  rewrite (trimEnd_keep _ _ Hc). now rewrite trimEnd_idempotent.
Qed.

Lemma startsWith_root (crate_name itemLink : string) (version : option string) :
  startsWith (absoluteLink crate_name version itemLink) "http" = true.
Proof.
  unfold absoluteLink. destruct (startsWith itemLink "http") eqn:E; [exact E|].
  exact (prefix_append "http" _).
Qed.

(** What a pushed item keeps of the anchor it comes from. *)
Lemma visit_pushed_shape (crate_name : string) (version query item_type : option string)
  (element : Element) (item : Item) :
  In item (visit crate_name version query item_type [] element) ->
  item = {| name := trim (inner_text element);
            type := classify (or_empty (attr_href element));
            link := absoluteLink crate_name version (or_empty (attr_href element)) |}
  /\ trim (inner_text element) <> ""
  /\ or_empty (attr_href element) <> ""
  /\ classify (or_empty (attr_href element)) <> "unknown"
  /\ passes query item_type item = true.
Proof.
  unfold visit, passes.
  destruct ((trim (inner_text element) =? "")%string) eqn:En; [intros []|].
  destruct ((or_empty (attr_href element) =? "")%string) eqn:El; [intros []|].
  cbn [orb].
  destruct (matchesQuery query (trim (inner_text element))) eqn:Hq; [|intros []].
  destruct (matchesType item_type (classify (or_empty (attr_href element)))
              (trim (inner_text element))) eqn:Ht; [|intros []].
  destruct ((classify (or_empty (attr_href element)) =? "unknown")%string) eqn:Hu;
    [intros []|].
  cbn [andb negb]. intros [<-|[]]. cbn [name type].
  rewrite Hq, Ht. repeat split; now apply String.eqb_neq.
Qed.

(** The anchors [visit] pushes an item for. *)
Lemma visit_pushes (crate_name : string) (version query item_type : option string)
  (element : Element) :
  trim (inner_text element) <> "" ->
  or_empty (attr_href element) <> "" ->
  classify (or_empty (attr_href element)) <> "unknown" ->
  matchesQuery query (trim (inner_text element)) = true ->
  matchesType item_type (classify (or_empty (attr_href element)))
    (trim (inner_text element)) = true ->
  visit crate_name version query item_type [] element =
  [ {| name := trim (inner_text element);
       type := classify (or_empty (attr_href element));
       link := absoluteLink crate_name version (or_empty (attr_href element)) |} ].
Proof.
  intros Hn Hl Hk Hq Ht. unfold visit.
  apply String.eqb_neq in Hn, Hl, Hk. now rewrite Hn, Hl, Hk, Hq, Ht.
Qed.

Lemma results_from_anchors (doc : Document) (crate_name : string)
  (version query item_type : option string) (item : Item) :
  In item (searchResults doc crate_name version query item_type) ->
  exists element,
    In element (doc "#main-content a")
    /\ In item (visit crate_name version query item_type [] element).
Proof.
  intros Hin.
  apply (Subsequence_In _ _ _ (uniqueItems_Subsequence _)) in Hin.
  rewrite collectItems_flat_map in Hin.
  now apply in_flat_map in Hin.
Qed.

(** Every listed item has a name that is not empty and has no white space
    at either end: it is the trimmed text of an anchor of the page. *)
Theorem results_names_trimmed (doc : Document) (crate_name : string)
  (version query item_type : option string) :
  Forall (fun item => name item <> "" /\ trim (name item) = name item)
    (searchResults doc crate_name version query item_type).
Proof.
  apply Forall_forall. intros item Hin.
  apply results_from_anchors in Hin as (element & _ & Hpush).
  apply visit_pushed_shape in Hpush as (-> & Hn & _). cbn [name].
  split; [exact Hn | apply trim_idempotent].
Qed.

(** Every listed item has an absolute link: the target of its anchor when
    that starts with http, and otherwise the target appended to
    https://docs.rs/{crate}/{version}/{crate}/; in both cases the link
    starts with http. *)
Theorem results_links_absolute (doc : Document) (crate_name : string)
  (version query item_type : option string) :
  Forall (fun item =>
            startsWith (link item) "http" = true
            /\ exists element,
                 In element (doc "#main-content a")
                 /\ link item =
                    if startsWith (or_empty (attr_href element)) "http"
                    then or_empty (attr_href element)
                    else "https://docs.rs/" ++ crate_name ++ "/"
                           ++ version_or_latest version ++ "/" ++ crate_name ++ "/"
                           ++ or_empty (attr_href element))
    (searchResults doc crate_name version query item_type).
Proof.
  apply Forall_forall. intros item Hin.
  apply results_from_anchors in Hin as (element & Helem & Hpush).
  apply visit_pushed_shape in Hpush as (-> & _). cbn [link]. split.
  - apply startsWith_root.
  - now exists element.
Qed.

(** Every listed item passes both filters: with a query that is not empty,
    the lower-cased query occurs in the lower-cased name of every listed
    item. *)
Theorem results_match_query (doc : Document) (crate_name query : string)
  (version item_type : option string) :
  query <> "" ->
  Forall (fun item => Contains (toLowerCase (name item)) (toLowerCase query))
    (searchResults doc crate_name version (Some query) item_type).
Proof.
  intros Hne. apply Forall_forall. intros item Hin.
  apply results_from_anchors in Hin as (element & _ & Hpush).
  apply visit_pushed_shape in Hpush as (_ & _ & _ & _ & Hpass).
  unfold passes in Hpass. apply andb_true_iff in Hpass as [Hq _].
  unfold matchesQuery in Hq. apply String.eqb_neq in Hne.
  rewrite Hne in Hq. cbn [orb] in Hq. now apply includes_Contains.
Qed.

Lemma results_match_query_hash :
  Forall (fun item => Contains (toLowerCase (name item)) (toLowerCase "HASH"))
    (searchResults mixed_index "std" None (Some "HASH") None).
Proof. apply (results_match_query mixed_index "std" "HASH" None None). discriminate. Defined.

(** No link that qualifies is lost: an anchor of the page with a name and
    a target that are not empty, of a known kind, and passing the name and
    the type filter, has an item of its name and kind in the listing. *)
Theorem results_complete (doc : Document) (crate_name : string)
  (version query item_type : option string) (element : Element) :
  In element (doc "#main-content a") ->
  trim (inner_text element) <> "" ->
  or_empty (attr_href element) <> "" ->
  classify (or_empty (attr_href element)) <> "unknown" ->
  matchesQuery query (trim (inner_text element)) = true ->
  matchesType item_type (classify (or_empty (attr_href element)))
    (trim (inner_text element)) = true ->
  exists item,
    In item (searchResults doc crate_name version query item_type)
    /\ name item = trim (inner_text element)
    /\ type item = classify (or_empty (attr_href element)).
Proof.
  intros Helem Hn Hl Hk Hq Ht.
  pose (pushed := {| name := trim (inner_text element);
                     type := classify (or_empty (attr_href element));
                     link := absoluteLink crate_name version
                               (or_empty (attr_href element)) |}).
  assert (Hin : In pushed (collectItems doc crate_name version query item_type)).
  { rewrite collectItems_flat_map. apply in_flat_map. exists element.
    split; [exact Helem|]. rewrite (visit_pushes _ _ _ _ _ Hn Hl Hk Hq Ht). now left. }
  destruct (keepFirst_first [] _ pushed Hin eq_refl) as (y & Hfind & Hy).
  exists y. unfold searchResults. rewrite uniqueItems_keepFirst.
  split; [exact Hy|].
  apply find_some in Hfind as [_ Hsame]. apply sameIdentity_iff in Hsame.
  unfold identity in Hsame. cbn [name type pushed] in Hsame. now inversion Hsame.
Qed.

Lemma results_complete_hashmap :
  exists item,
    In item (searchResults mixed_index "std" None None None)
    /\ name item = "HashMap"
    /\ type item = "struct".
Proof.
  apply (results_complete mixed_index "std" None None None
           (anchor "  HashMap  "
              "https://doc.rust-lang.org/std/collections/struct.HashMap.html")).
  - cbn. left. reflexivity.
  - discriminate.
  - discriminate.
  - discriminate.
  - reflexivity.
  - reflexivity.
Defined.

(** ** The listing and its filters *)

Lemma passes_identity (query item_type : option string) (x y : Item) :
  identity x = identity y -> passes query item_type x = passes query item_type y.
Proof.
  unfold identity, passes. intros H. inversion H as [[Hn Ht]]. now rewrite Hn, Ht.
Qed.

Lemma visit_filtered (crate_name : string) (version query item_type : option string)
  (element : Element) :
  visit crate_name version query item_type [] element =
  filter (passes query item_type) (visit crate_name version None None [] element).
Proof.
  unfold visit, passes.
  destruct ((trim (inner_text element) =? "")%string
            || (or_empty (attr_href element) =? "")%string); [reflexivity|].
  cbn [matchesQuery matchesType andb].
  destruct ((classify (or_empty (attr_href element)) =? "unknown")%string);
    cbn [negb]; [now rewrite andb_false_r|].
  rewrite andb_true_r. cbn [app filter name type].
  now destruct (matchesQuery query (trim (inner_text element))
                && matchesType item_type (classify (or_empty (attr_href element)))
                     (trim (inner_text element))).
Qed.

Lemma filter_flat_map {A B : Type} (f : B -> bool) (g h : A -> list B) (l : list A) :
  (forall x, g x = filter f (h x)) ->
  flat_map g l = filter f (flat_map h l).
Proof.
  intros H. induction l as [|x l IH]; [reflexivity|].
  cbn [flat_map]. now rewrite filter_app, IH, H.
Qed.

(** The surviving items under filters are the filtered surviving items
    without filters. *)
Lemma collectItems_filtered (doc : Document) (crate_name : string)
  (version query item_type : option string) :
  collectItems doc crate_name version query item_type =
  filter (passes query item_type) (collectItems doc crate_name version None None).
Proof.
  rewrite !collectItems_flat_map. apply filter_flat_map. intros e.
  apply visit_filtered.
Qed.

Lemma existsb_filter_same (f : Item -> bool) (x : Item) (seen : list Item) :
  (forall a b, identity a = identity b -> f a = f b) ->
  f x = true ->
  existsb (sameIdentity x) (filter f seen) = existsb (sameIdentity x) seen.
Proof.
  intros Hf Hx. induction seen as [|z seen IH]; [reflexivity|].
  cbn [filter existsb]. destruct (f z) eqn:Ez.
  - cbn [existsb]. now rewrite IH.
  - rewrite IH. destruct (sameIdentity x z) eqn:Es; [|reflexivity].
    apply sameIdentity_iff in Es. rewrite (Hf _ _ Es), Hx in Ez. discriminate.
Qed.

(** Keeping first occurrences commutes with a filter that looks at name
    and type only. *)
Lemma keepFirst_filter (f : Item -> bool) (seen items : list Item) :
  (forall a b, identity a = identity b -> f a = f b) ->
  keepFirst (filter f seen) (filter f items) = filter f (keepFirst seen items).
Proof.
  intros Hf. revert seen; induction items as [|x items IH]; intros seen; [reflexivity|].
  cbn [filter keepFirst]. specialize (IH (seen ++ [x])%list).
  rewrite filter_app in IH. cbn [filter] in IH.
  destruct (f x) eqn:Ex.
  - cbn [keepFirst]. rewrite (existsb_filter_same f x seen Hf Ex), IH.
    destruct (existsb (sameIdentity x) seen); [reflexivity|].
    cbn [filter]. now rewrite Ex.
  - rewrite app_nil_r in IH. rewrite IH.
    destruct (existsb (sameIdentity x) seen); [reflexivity|].
    cbn [filter]. now rewrite Ex.
Qed.

(** Searching with a name and a type filter gives the listing of the
    search without filters, filtered: the filters choose among the
    deduplicated items and change neither their order nor the link kept
    for a name and kind. *)
Theorem results_filter_commute (doc : Document) (crate_name : string)
  (version query item_type : option string) :
  searchResults doc crate_name version query item_type =
  filter (passes query item_type) (searchResults doc crate_name version None None).
Proof.
  unfold searchResults. rewrite collectItems_filtered, !uniqueItems_keepFirst.
  apply (keepFirst_filter (passes query item_type) []).
  intros a b. apply passes_identity.
Qed.

Lemma keepFirst_fixed (seen items : list Item) :
  NoDup (map identity items) ->
  (forall x, In x items -> existsb (sameIdentity x) seen = false) ->
  keepFirst seen items = items.
Proof.
  revert seen; induction items as [|x items IH]; intros seen Hnd Hseen; [reflexivity|].
  cbn [keepFirst]. rewrite (Hseen x (or_introl eq_refl)).
  cbn [map] in Hnd. inversion Hnd as [|? ? Hx Hnd']; subst.
  f_equal. apply IH; [exact Hnd'|].
  intros y Hy. rewrite existsb_app, (Hseen y (or_intror Hy)). cbn [existsb orb].
  rewrite orb_false_r. destruct (sameIdentity y x) eqn:E; [|reflexivity].
  apply sameIdentity_iff in E. elim Hx. rewrite E. now apply in_map.
Qed.

(** Removing duplicates a second time removes nothing. *)
Theorem uniqueItems_idempotent (items : list Item) :
  uniqueItems (uniqueItems items) = uniqueItems items.
Proof.
  rewrite (uniqueItems_keepFirst (uniqueItems items)).
  apply keepFirst_fixed.
  - rewrite uniqueItems_keepFirst. apply keepFirst_NoDup.
  - reflexivity.
Qed.

Lemma lower_unit_idempotent (c : ascii) : lower_unit (lower_unit c) = lower_unit c.
Proof. destruct c as [[] [] [] [] [] [] [] []]; reflexivity. Qed.

Lemma toLowerCase_idempotent (s : string) : toLowerCase (toLowerCase s) = toLowerCase s.
Proof.
  induction s as [|c s IH]; [reflexivity|].
  cbn [toLowerCase]. now rewrite lower_unit_idempotent, IH.
Qed.

Lemma toLowerCase_empty (s : string) : (toLowerCase s =? "")%string = (s =? "")%string.
Proof. now destruct s. Qed.

(** The filters do not see the case of letters: lower-casing the query,
    the type query or the name of the item changes neither the verdict of
    the name filter nor the name clause of the type filter. *)
Theorem filters_ignore_case (query type itemName : string) :
  matchesQuery (Some (toLowerCase query)) itemName = matchesQuery (Some query) itemName
  /\ matchesQuery (Some query) (toLowerCase itemName) = matchesQuery (Some query) itemName
  /\ matchesType (Some query) type (toLowerCase itemName) =
     matchesType (Some query) type itemName.
Proof.
  unfold matchesQuery, matchesType.
  now rewrite toLowerCase_empty, !toLowerCase_idempotent.
Qed.

Lemma classify_kinds (itemLink : string) : In (classify itemLink) classifiedKinds.
Proof.
  unfold classify, classifiedKinds.
  repeat match goal with
         | |- context [if includes ?s ?t then _ else _] => destruct (includes s t)
         end; cbn; tauto.
Qed.

(** The classified type is one of struct, trait, function, enum, type,
    constant, static, macro and unknown.  It is never fn, const or union:
    a type query fn, const or union matches no item by its type, and
    selects the items whose lower-cased name holds the query. *)
Theorem type_query_by_name_only (itemLink itemName typeQuery : string) :
  In typeQuery ["fn"; "const"; "union"] ->
  In (classify itemLink) classifiedKinds
  /\ classify itemLink <> typeQuery
  /\ matchesType (Some typeQuery) (classify itemLink) itemName =
     includes (toLowerCase itemName) typeQuery.
Proof.
  intros Hq. pose proof (classify_kinds itemLink) as Hk.
  split; [exact Hk|].
  assert (Hneq : classify itemLink <> typeQuery).
  { unfold classifiedKinds in Hk. cbn [In] in Hk, Hq.
    intros E. rewrite E in Hk.
    repeat match goal with H : _ \/ _ |- _ => destruct H end;
      subst; try discriminate; try contradiction. }
  split; [exact Hneq|].
  unfold matchesType. apply String.eqb_neq in Hneq. rewrite Hneq.
  cbn [In] in Hq.
  repeat match goal with H : _ \/ _ |- _ => destruct H end;
    subst; try contradiction; reflexivity.
Qed.

Lemma type_query_by_name_only_fn :
  In (classify "task/fn.spawn.html") classifiedKinds
  /\ classify "task/fn.spawn.html" <> "fn"
  /\ matchesType (Some "fn") (classify "task/fn.spawn.html") "spawn" =
     includes (toLowerCase "spawn") "fn".
Proof.
  apply (type_query_by_name_only "task/fn.spawn.html" "spawn" "fn").
  cbn. left. reflexivity.
Defined.

(** ** Payloads on pages with and without content *)

Lemma getReadMe_nothing_found_blank :
  getReadMe (serving blank_page) "serde" None =
  Returned ("# serde Documentation" ++ nl ++ nl
              ++ "No documentation content found at "
              ++ "https://docs.rs/serde/latest/serde/index.html").
Proof.
  apply (getReadMe_nothing_found (serving blank_page) "serde" "<!DOCTYPE html>" None);
    reflexivity.
Defined.

(** The overview shows the first description block of the page and
    nothing else: with a description block on the page, the payload is the
    heading and the rendering of the inner markup of the first such block;
    later blocks and the alternate declaration block play no part. *)
Theorem getReadMe_first_docblock (env : Env) (crate_name data : string)
  (version : option string) (b : Element) (rest : Cheerio) :
  axios_get env (readmeUrl crate_name version) = Resolved data ->
  cheerio_load env data ".rustdoc .docblock" = b :: rest ->
  getReadMe env crate_name version =
  Returned ("# " ++ crate_name ++ " Documentation" ++ nl ++ nl
              ++ turndown env (inner_html b)).
Proof.
  intros Hget Hdoc. unfold getReadMe.
  now rewrite Hget, readmeFragment_cases, Hdoc.
Qed.

Lemma getReadMe_first_docblock_page :
  getReadMe (serving item_decl_and_doc) "tokio" None =
  Returned ("# tokio Documentation" ++ nl ++ nl ++ "Spawns a task.").
Proof.
  apply (getReadMe_first_docblock (serving item_decl_and_doc) "tokio"
           "<!DOCTYPE html>" None (block "Spawns a task.") []); reflexivity.
Defined.

(** On a page where none of the four selectors of [getItem] matches, the
    payload is the not-found notice with the URL that was fetched, and
    nothing is thrown. *)
Theorem getItem_no_selector_matches (env : Env)
  (crate_name item_type item_path data : string) (version : option string) :
  axios_get env (itemUrl crate_name version item_type item_path) = Resolved data ->
  cheerio_load env data "#main-content" = [] ->
  cheerio_load env data ".rustdoc .item-decl" = [] ->
  cheerio_load env data ".rustdoc .docblock" = [] ->
  cheerio_load env data ".rustdoc-main .item-decl" = [] ->
  getItem env crate_name item_type item_path version =
  Returned ("# " ++ item_path ++ " (" ++ item_type ++ ")" ++ nl ++ nl
              ++ "No documentation content found at "
              ++ itemUrl crate_name version item_type item_path).
Proof.
  intros Hget Hmain Hdecl Hdoc Halt.
  apply (getItem_empty_fragment _ _ _ _ data _ Hget).
  now rewrite (itemFragment_fallback _ Hmain), Hdoc, Hdecl, Halt.
Qed.

Lemma getItem_no_selector_matches_blank :
  getItem (serving blank_page) "tokio" "struct" "tokio::sync::Mutex" None =
  Returned ("# tokio::sync::Mutex (struct)" ++ nl ++ nl
              ++ "No documentation content found at "
              ++ "https://docs.rs/tokio/latest/tokio/sync/struct.Mutex.html").
Proof.
  apply (getItem_no_selector_matches (serving blank_page) "tokio" "struct"
           "tokio::sync::Mutex" "<!DOCTYPE html>" None); reflexivity.
Defined.

(** With a fragment that is not empty, the payload of [getItem] is the
    heading with the item path as given and the kind, the line of the URL
    that was fetched, and the rendering of the fragment. *)
Theorem getItem_found (env : Env) (crate_name item_type item_path data : string)
  (version : option string) :
  axios_get env (itemUrl crate_name version item_type item_path) = Resolved data ->
  fst (run itemFragment (cheerio_load env data)) <> "" ->
  getItem env crate_name item_type item_path version =
  Returned ("# " ++ item_path ++ " (" ++ item_type ++ ")" ++ nl ++ nl
              ++ "**Documentation URL:** "
              ++ itemUrl crate_name version item_type item_path ++ nl ++ nl
              ++ turndown env (fst (run itemFragment (cheerio_load env data)))).
Proof.
  intros Hget Hfrag. unfold getItem. rewrite Hget.
  apply String.eqb_neq in Hfrag. now rewrite Hfrag.
Qed.

Lemma getItem_found_spawn :
  getItem (serving item_decl_and_doc) "tokio" "fn" "tokio::task::spawn" None =
  Returned ("# tokio::task::spawn (fn)" ++ nl ++ nl
              ++ "**Documentation URL:** "
              ++ "https://docs.rs/tokio/latest/tokio/task/fn.spawn.html" ++ nl ++ nl
              ++ "pub fn spawn()Spawns a task.").
Proof.
  apply (getItem_found (serving item_decl_and_doc) "tokio" "fn" "tokio::task::spawn"
           "<!DOCTYPE html>" None).
  - reflexivity.
  - discriminate.
Defined.

(** A listing without items is a normal payload: the heading with the
    query, or the words all items for an empty or absent query, the line
    Found 0 items and the sentence No matching items found. *)
Theorem searchInCrate_no_match (env : Env) (crate_name data : string)
  (query version item_type : option string) :
  axios_get env (allUrl crate_name version) = Resolved data ->
  searchResults (cheerio_load env data) crate_name version query item_type = [] ->
  searchInCrate env crate_name query version item_type =
  Returned ("# Search Results for " ++ dq ++ or_else query "all items" ++ dq
              ++ " in " ++ crate_name ++ nl ++ nl
              ++ "Found 0 items" ++ nl ++ nl ++ "No matching items found.").
Proof.
  intros Hget Hnone. unfold searchInCrate. now rewrite Hget, Hnone.
Qed.

Lemma searchInCrate_no_match_index :
  searchInCrate (serving index_page) "tokio" (Some "zzz") None None =
  Returned ("# Search Results for " ++ dq ++ "zzz" ++ dq
              ++ " in " ++ "tokio" ++ nl ++ nl
              ++ "Found 0 items" ++ nl ++ nl ++ "No matching items found.").
Proof.
  apply (searchInCrate_no_match (serving index_page) "tokio" "<!DOCTYPE html>"
           (Some "zzz") None None); reflexivity.
Defined.

(** ** The registry search and the dispatch *)



Lemma dispatch_unknown (env : Env) (reg : Registry) (request : Request.t) :
  Request.name request <> "docs_rs_search_crates" ->
  Request.name request <> "docs_rs_readme" ->
  Request.name request <> "docs_rs_get_item" ->
  Request.name request <> "docs_rs_search_in_crate" ->
  dispatch env reg request =
  inr (McpError MethodNotFound ("Unknown tool: " ++ Request.name request)).
Proof.
  intros H1 H2 H3 H4. unfold dispatch.
  apply String.eqb_neq in H1, H2, H3, H4. now rewrite H1, H2, H3, H4.
Qed.

(** Every failure leaves the handler as an internal error whose message
    starts with Error executing tool and the name of the tool: the handler
    never lets a method-not-found error out. *)
Theorem callTool_errors_internal (mcp_toString : ErrorCode -> string -> string)
  (env : Env) (reg : Registry) (request : Request.t) :
  match callTool mcp_toString env reg request with
  | ToolReturned _ => True
  | ToolThrown error =>
      exists detail,
        error = McpError InternalError
                  ("Error executing tool " ++ Request.name request ++ ": " ++ detail)
  end.
Proof.
  unfold callTool. destruct (dispatch env reg request) as [[text|message]|error].
  - exact I.
  - eexists. reflexivity.
  - eexists. reflexivity.
Qed.

(** A tool name that is none of the four is answered by an internal
    error, not by a method-not-found error: the [McpError] with the code
    MethodNotFound and the message Unknown tool: {name} thrown by the
    [switch] is caught and printed into the message of the internal
    error. *)
Theorem callTool_unknown_tool (mcp_toString : ErrorCode -> string -> string)
  (env : Env) (reg : Registry) (request : Request.t) :
  Request.name request <> "docs_rs_search_crates" ->
  Request.name request <> "docs_rs_readme" ->
  Request.name request <> "docs_rs_get_item" ->
  Request.name request <> "docs_rs_search_in_crate" ->
  callTool mcp_toString env reg request =
  ToolThrown
    (McpError InternalError
       ("Error executing tool " ++ Request.name request ++ ": "
          ++ mcp_toString MethodNotFound ("Unknown tool: " ++ Request.name request))).
Proof.
  intros H1 H2 H3 H4. unfold callTool.
  now rewrite (dispatch_unknown env reg request H1 H2 H3 H4).
Qed.

Lemma callTool_unknown_tool_ping :
  callTool sdk_toString offline registry_down (request "ping" "serde" "serde") =
  ToolThrown
    (McpError InternalError
       "Error executing tool ping: McpError: MCP error -32601: Unknown tool: ping").
Proof.
  apply (callTool_unknown_tool sdk_toString offline registry_down
           (request "ping" "serde" "serde")); discriminate.
Defined.

(** A failed fetch crosses two handlers: the operation wraps the cause in
    its Failed to ... message, and the dispatch wraps the printed error in
    Error executing tool {name}; this for each of the four tools. *)
Theorem callTool_fetch_failure (mcp_toString : ErrorCode -> string -> string)
  (env : Env) (reg : Registry) (error registry_error crate_name item_path : string) :
  (forall url, axios_get env url = Rejected error) ->
  (forall q n s, crates_get reg q n s = CratesRejected registry_error) ->
  callTool mcp_toString env reg (request "docs_rs_readme" crate_name item_path) =
    ToolThrown (McpError InternalError
      ("Error executing tool docs_rs_readme: Error: Failed to get README for "
         ++ crate_name ++ ": " ++ error))
  /\ callTool mcp_toString env reg (request "docs_rs_get_item" crate_name item_path) =
    ToolThrown (McpError InternalError
      ("Error executing tool docs_rs_get_item: Error: "
         ++ "Failed to get item documentation for " ++ item_path ++ ": " ++ error))
  /\ callTool mcp_toString env reg
       (request "docs_rs_search_in_crate" crate_name item_path) =
    ToolThrown (McpError InternalError
      ("Error executing tool docs_rs_search_in_crate: Error: "
         ++ "Failed to search items in " ++ crate_name ++ ": " ++ error))
  /\ callTool mcp_toString env reg
       (request "docs_rs_search_crates" crate_name item_path) =
    ToolThrown (McpError InternalError
      ("Error executing tool docs_rs_search_crates: Error: "
         ++ "Failed to search crates: " ++ registry_error)).
Proof.
  intros Hget Hreg.
  unfold callTool, dispatch, request, getReadMe, getItem, searchInCrate, searchCrates.
  cbn [Request.name Request.crate_name Request.item_path Request.item_type
       Request.version Request.query Request.per_page Request.sort].
  cbn [String.eqb Ascii.eqb Bool.eqb].
  rewrite !Hget, !Hreg. repeat split.
Qed.

Lemma callTool_fetch_failure_offline :
  callTool sdk_toString offline registry_down (request "docs_rs_readme" "serde" "serde") =
    ToolThrown (McpError InternalError
      ("Error executing tool docs_rs_readme: Error: Failed to get README for "
         ++ "serde" ++ ": " ++ "Error: getaddrinfo ENOTFOUND docs.rs"))
  /\ callTool sdk_toString offline registry_down
       (request "docs_rs_search_crates" "serde" "serde") =
    ToolThrown (McpError InternalError
      ("Error executing tool docs_rs_search_crates: Error: "
         ++ "Failed to search crates: " ++ "Error: connect ECONNREFUSED")).
Proof.
  pose proof (callTool_fetch_failure sdk_toString offline registry_down
                "Error: getaddrinfo ENOTFOUND docs.rs" "Error: connect ECONNREFUSED"
                "serde" "serde" (fun _ => eq_refl) (fun _ _ _ => eq_refl))
    as (Hreadme & _ & _ & Hcrates).
  split; [exact Hreadme | exact Hcrates].
Defined.

Example searchCrates_two_crates :
  searchCrates two_crates (Some "ser") None None =
  Returned ("# Crate Search Results for " ++ dq ++ "ser" ++ dq ++ nl ++ nl
              ++ "## serde (1.0.0)" ++ nl ++ nl
              ++ "**Description:** A serialization framework" ++ nl ++ nl
              ++ "**Downloads:** 1000" ++ nl ++ nl
              ++ "**Documentation:** https://docs.rs/serde" ++ nl ++ nl
              ++ "---" ++ nl ++ nl
              ++ "## anon (0.1.0)" ++ nl ++ nl
              ++ "**Description:** No description available" ++ nl ++ nl
              ++ "**Downloads:** 7" ++ nl ++ nl
              ++ "**Documentation:** N/A" ++ nl ++ nl
              ++ "---" ++ nl).
Proof. reflexivity. Qed.


(** A search that finds no crate returns the heading alone: unlike the
    search in a crate, it has no sentence for an empty result. *)
Theorem searchCrates_no_crate (reg : Registry) (query : option string)
  (per_page : option Z) (sort : option string) :
  (forall q n s, crates_get reg q n s = CratesResolved []) ->
  searchCrates reg query per_page sort =
  Returned ("# Crate Search Results for " ++ dq ++ show query ++ dq ++ nl ++ nl).
Proof.
  intros Hnone. unfold searchCrates. rewrite Hnone. cbn [map join].
  now rewrite !append_empty_r.
Qed.

Lemma searchCrates_no_crate_found :
  searchCrates no_crates (Some "zzz") None None =
  Returned ("# Crate Search Results for " ++ dq ++ "zzz" ++ dq ++ nl ++ nl).
Proof.
  apply (searchCrates_no_crate no_crates (Some "zzz") None None). reflexivity.
Defined.
